(** * pygdf.dataframe: Buffer, Series and DataFrame

    A shallow embedding of [pygdf/dataframe.py]: the fixed-capacity
    [Buffer], the nullable column [Series] and the table [DataFrame],
    followed by the properties that the specification states about them.

    Conventions of the embedding.
    - Python integers are [Z]; a Python exception is a constructor of [exn]
      carried by [Raise].
    - A numpy or numba array is an [ndarray]: a dtype and the list of its
      elements.  Arrays are one-dimensional, which is what [Buffer] accepts
      ([_BufferSentry(self.mem).ndim(1)]); host and device arrays are not
      told apart, so [cudautils.to_device] and [copy_to_host] are the
      identity.
    - Methods that mutate their receiver ([Buffer.extend],
      [DataFrame.__setitem__], [DataFrame.add_column]) return the receiver
      after the call next to the result, also when they raise.
    - The modules [cudautils] and [utils] of the package are not part of
      [dataframe.py]; the kernels used here are modelled from the
      specification and from the docstrings of [dataframe.py]. *)

From Stdlib Require Import String ZArith List Bool Lia SpecFloat.
Import ListNotations.
Open Scope Z_scope.

(** ** Exceptions and results *)

Inductive exn : Type :=
| ValueError
| TypeError
| NameError
| KeyError
| IndexError
| MemoryError
| NotImplementedError
| AttributeError.

Inductive result (A : Type) : Type :=
| Ok (a : A)
| Raise (e : exn).

Arguments Ok {A} a.
Arguments Raise {A} e.

Definition bind {A B : Type} (r : result A) (k : A -> result B) : result B :=
  match r with
  | Ok a => k a
  | Raise e => Raise e
  end.

Notation "x <- c ;; k" := (bind c (fun x => k))
  (at level 61, c at next level, right associativity).

(** ** Element types *)

Inductive width : Type := W8 | W16 | W32 | W64.

(** The numeric dtypes: signed and unsigned integers and [float64]. *)
Inductive np_dtype : Type :=
| Int (w : width)
| UInt (w : width)
| Float64.

Definition int8 := Int W8.
Definition uint8 := UInt W8.
Definition int32 := Int W32.
Definition int64 := Int W64.
Definition float64 := Float64.

Definition bits (w : width) : Z :=
  match w with W8 => 8 | W16 => 16 | W32 => 32 | W64 => 64 end.

Definition itemsize (d : np_dtype) : Z :=
  match d with
  | Int w | UInt w => bits w / 8
  | Float64 => 8
  end.

(** [dtype.kind] *)
Inductive dkind : Type := kind_i | kind_u | kind_f.

Definition kind (d : np_dtype) : dkind :=
  match d with
  | Int _ => kind_i
  | UInt _ => kind_u
  | Float64 => kind_f
  end.

Definition width_eqb (a b : width) : bool :=
  match a, b with
  | W8, W8 | W16, W16 | W32, W32 | W64, W64 => true
  | _, _ => false
  end.

Definition dtype_eqb (a b : np_dtype) : bool :=
  match a, b with
  | Int x, Int y => width_eqb x y
  | UInt x, UInt y => width_eqb x y
  | Float64, Float64 => true
  | _, _ => false
  end.

Definition dkind_eqb (a b : dkind) : bool :=
  match a, b with
  | kind_i, kind_i | kind_u, kind_u | kind_f, kind_f => true
  | _, _ => false
  end.

(** An array element: an integer or an IEEE 754 binary64 number. *)
Inductive scalar : Type :=
| I (z : Z)
| F (x : spec_float).

Definition nan : scalar := F S754_nan.

Definition isnan (v : scalar) : bool :=
  match v with
  | F S754_nan => true
  | _ => false
  end.

(** Conversion of an integer to binary64, rounding to nearest even. *)
Definition float_of_Z (z : Z) : spec_float := binary_normalize 53 1024 z 0 false.

(** Conversion of a binary64 number to an integer, truncating toward zero.
    The conversion of NaN and of the infinities is implementation defined;
    it is 0 here. *)
Definition Z_of_float (x : spec_float) : Z :=
  match x with
  | S754_finite s m e =>
      let a := match e with
               | Zneg _ => Z.shiftr (Zpos m) (- e)
               | _ => Z.shiftl (Zpos m) e
               end in
      if s then - a else a
  | _ => 0
  end.

Definition to_float (v : scalar) : spec_float :=
  match v with
  | I z => float_of_Z z
  | F x => x
  end.

Definition to_Z (v : scalar) : Z :=
  match v with
  | I z => z
  | F x => Z_of_float x
  end.

(** Two's complement wrap-around of an integer to [w] bits. *)
Definition wrap_unsigned (w : width) (z : Z) : Z := z mod 2 ^ bits w.

Definition wrap_signed (w : width) (z : Z) : Z :=
  (z + 2 ^ (bits w - 1)) mod 2 ^ bits w - 2 ^ (bits w - 1).

(** The cast of one element to a dtype. *)
Definition cast_scalar (d : np_dtype) (v : scalar) : scalar :=
  match d with
  | Int w => I (wrap_signed w (to_Z v))
  | UInt w => I (wrap_unsigned w (to_Z v))
  | Float64 => F (to_float v)
  end.

(** The content of freshly allocated memory ([cuda.device_array]) is not
    initialised; it is the zero of the dtype here. *)
Definition zero_of (d : np_dtype) : scalar :=
  match d with
  | Float64 => F (S754_zero false)
  | _ => I 0
  end.

(** ** Arrays *)

Record ndarray : Type := mk_ndarray {
  nd_dtype : np_dtype;
  nd_data : list scalar
}.

Definition nd_size (a : ndarray) : Z := Z.of_nat (length (nd_data a)).

Definition device_array (shape : Z) (d : np_dtype) : ndarray :=
  mk_ndarray d (repeat (zero_of d) (Z.to_nat shape)).

(** *** Python indexing and slicing *)

Record slice : Type := mk_slice {
  start : option Z;
  stop : option Z;
  step : option Z
}.

(** [slice.indices]: a bound after the adjustment to a sequence of length
    [len], for a step that goes forward ([neg = false]) or backward. *)
Definition adjust_bound (len : Z) (neg : bool) (default : Z) (o : option Z) : Z :=
  let lower := if neg then -1 else 0 in
  let upper := if neg then len - 1 else len in
  match o with
  | None => default
  | Some v => if v <? 0 then Z.max (v + len) lower else Z.min v upper
  end.

Section Sequences.
Context {A : Type}.

(** [l[a:b]] *)
Definition slice1 (l : list A) (a b : option Z) : list A :=
  let len := Z.of_nat (length l) in
  let a' := adjust_bound len false 0 a in
  let b' := adjust_bound len false len b in
  firstn (Z.to_nat (b' - a')) (skipn (Z.to_nat a') l).

(** [l[a:b:st]] for a step other than 0 and 1. *)
Definition strided (d : A) (l : list A) (a b : option Z) (st : Z) : list A :=
  let len := Z.of_nat (length l) in
  let neg := st <? 0 in
  let a' := adjust_bound len neg (if neg then len - 1 else 0) a in
  let b' := adjust_bound len neg (if neg then -1 else len) b in
  let count :=
    if neg
    then (if b' <? a' then (a' - b' - 1) / (- st) + 1 else 0)
    else (if a' <? b' then (b' - a' - 1) / st + 1 else 0) in
  map (fun k => nth (Z.to_nat (a' + Z.of_nat k * st)) l d)
      (seq 0 (Z.to_nat count)).

(** [l[sl]] for a slice object. *)
Definition getslice (d : A) (l : list A) (sl : slice) : result (list A) :=
  match step sl with
  | None => Ok (slice1 l (start sl) (stop sl))
  | Some st =>
      if st =? 0 then Raise ValueError
      else if st =? 1 then Ok (slice1 l (start sl) (stop sl))
      else Ok (strided d l (start sl) (stop sl) st)
  end.

(** [l[i]] for an integer, as numpy has it: a negative index counts
    from the end. *)
Definition getitem (l : list A) (i : Z) : result A :=
  let len := Z.of_nat (length l) in
  let j := if i <? 0 then i + len else i in
  if (j <? 0) || (len <=? j) then Raise IndexError
  else match nth_error l (Z.to_nat j) with
       | Some x => Ok x
       | None => Raise IndexError
       end.

(** [dst.copy_to_device(src)]: the bytes of [src] are copied over the
    beginning of [dst], as many as fit. *)
Definition copy_to_device (dst src : list A) : list A :=
  firstn (length dst) src ++ skipn (length src) dst.

(** [l[a:].copy_to_device(src)], seen from [l], which the view aliases. *)
Definition copy_to_device_from (l : list A) (a : Z) (src : list A) : list A :=
  let len := Z.of_nat (length l) in
  let a' := Z.to_nat (adjust_bound len false 0 (Some a)) in
  firstn a' l ++ copy_to_device (skipn a' l) src.
End Sequences.

Definition nd_slice1 (a : ndarray) (lo hi : option Z) : ndarray :=
  mk_ndarray (nd_dtype a) (slice1 (nd_data a) lo hi).

Definition nd_getslice (a : ndarray) (sl : slice) : result ndarray :=
  l <- getslice (zero_of (nd_dtype a)) (nd_data a) sl ;;
  Ok (mk_ndarray (nd_dtype a) l).

Definition nd_getitem (a : ndarray) (i : Z) : result scalar :=
  getitem (nd_data a) i.

(** ** [utils] *)

Module utils.

Definition mask_bitsize : Z := 8.

Definition mask_dtype : np_dtype := int8.

(** Modelled from the spec: [utils.calc_chunk_size] is not in
    [dataframe.py]; it is the number of [chunksize]-bit elements needed
    to hold [size] bits, the ceiling of [size / chunksize]. *)
Definition calc_chunk_size (size chunksize : Z) : Z :=
  (size + chunksize - 1) / chunksize.

(** Modelled from the spec: [utils.get_numeric_type_info] is not in
    [dataframe.py]; it gives the smallest and the largest value of a
    dtype, the seeds of the [max] and [min] reductions. *)
Record numeric_type_info : Type := mk_info {
  min : scalar;
  max : scalar
}.

Definition get_numeric_type_info (d : np_dtype) : numeric_type_info :=
  match d with
  | Int w => mk_info (I (- 2 ^ (bits w - 1))) (I (2 ^ (bits w - 1) - 1))
  | UInt w => mk_info (I 0) (I (2 ^ bits w - 1))
  | Float64 => mk_info (F (SFopp (SFmax_float 53 1024))) (F (SFmax_float 53 1024))
  end.

End utils.

(** ** [cudautils] *)

Module cudautils.

Definition to_device (a : ndarray) : ndarray := a.

(** Modelled from the spec: [cudautils.astype] is not in [dataframe.py];
    it is the backend's [cast(data, target_dtype)], which gives the array
    itself when the dtype is unchanged and casts every element
    otherwise. *)
Definition astype (a : ndarray) (d : np_dtype) : ndarray :=
  if dtype_eqb (nd_dtype a) d then a
  else mk_ndarray d (map (cast_scalar d) (nd_data a)).

(** Modelled from the spec: [cudautils.mask_get] is not in
    [dataframe.py]; it reads bit [idx % 8] of byte [idx / 8], which the
    docstrings of [Series.set_mask] and [Series.from_masked_array] write
    [(mask[idx // 8] >> (idx % 8)) & 1].  [getbyte] is the indexing of the
    mask, an array or a [Buffer]. *)
Definition mask_get (getbyte : Z -> result scalar) (pos : Z) : result Z :=
  byte <- getbyte (pos / 8) ;;
  match byte with
  | I z => Ok (Z.land (Z.shiftr z (pos mod 8)) 1)
  | F _ => Raise TypeError
  end.

(** The validity of row [i] as a kernel reads it from a mask array; a
    row whose mask byte cannot be read counts as null. *)
Definition valid_at (mask : ndarray) (i : Z) : bool :=
  match mask_get (nd_getitem mask) i with
  | Ok v => negb (v =? 0)
  | Raise _ => false
  end.

Definition popcount8 (z : Z) : Z :=
  Z.of_nat (length (filter (Z.testbit z) (map Z.of_nat (seq 0 8)))).

(** Modelled from the spec: [cudautils.count_nonzero_mask] is not in
    [dataframe.py]; it is the backend's [count_set_bits(mask)]. *)
Definition count_nonzero_mask (mask : ndarray) : Z :=
  fold_right Z.add 0 (map (fun b => popcount8 (to_Z b)) (nd_data mask)).

Definition indexed {A : Type} (l : list A) : list (Z * A) :=
  combine (map Z.of_nat (seq 0 (length l))) l.

(** Modelled from the spec: [cudautils.fillna] is not in [dataframe.py];
    it is the backend's [fill_null(data, mask, value)], a dense array of
    the dtype of [data] with the nulls replaced by [value]. *)
Definition fillna (data mask : ndarray) (value : scalar) : ndarray :=
  mk_ndarray (nd_dtype data)
    (map (fun '(i, v) =>
            if valid_at mask i then v else cast_scalar (nd_dtype data) value)
         (indexed (nd_data data))).

(** Modelled from the spec: [cudautils.copy_to_dense] is not in
    [dataframe.py]; it is the backend's [compact_dense(data, mask)], the
    number of valid elements and an array that holds them in order. *)
Definition copy_to_dense (data mask : ndarray) : Z * ndarray :=
  let kept :=
    map snd (filter (fun '(i, _) => valid_at mask i) (indexed (nd_data data))) in
  (Z.of_nat (length kept), mk_ndarray (nd_dtype data) kept).

Definition scalar_ltb (a b : scalar) : bool :=
  match a, b with
  | I x, I y => x <? y
  | _, _ => SFltb (to_float a) (to_float b)
  end.

(** Modelled from the spec: [cudautils.compute_min] and
    [cudautils.compute_max] are not in [dataframe.py]; they are the
    backend's reductions [reduce_min(data, seed)] and
    [reduce_max(data, seed)]. *)
Definition compute_min (arr : ndarray) (init : scalar) : scalar :=
  fold_left (fun acc v => if scalar_ltb v acc then v else acc) (nd_data arr) init.

Definition compute_max (arr : ndarray) (init : scalar) : scalar :=
  fold_left (fun acc v => if scalar_ltb acc v then v else acc) (nd_data arr) init.



End cudautils.

(** ** [Buffer]: a 1D gpu buffer *)

Module Buffer.

Record t : Type := mk {
  mem : ndarray;
  size : Z;
  capacity : Z
}.

(** [self.dtype] is set from [self.mem.dtype] by [__init__] and never
    assigned again. *)
Definition dtype (self : t) : np_dtype := nd_dtype (mem self).

Definition __init__ (mem : ndarray) (size capacity : option Z) : t :=
  let size := match size with None => nd_size mem | Some s => s end in
  let capacity := match capacity with None => size | Some c => c end in
  mk (cudautils.to_device mem) size capacity.

Definition from_empty (mem : ndarray) : t :=
  __init__ mem (Some 0) (Some (nd_size mem)).

Definition to_gpu_array (self : t) : ndarray :=
  nd_slice1 (mem self) None (Some (size self)).

Definition to_array (self : t) : ndarray := to_gpu_array self.

(** [__getitem__], the branch of a slice. *)
Definition getitem_slice (self : t) (arg : slice) : result t :=
  sliced <- nd_getslice (to_gpu_array self) arg ;;
  Ok (__init__ sliced None None).

(** [__getitem__], the branch of an integer. *)
Definition getitem_int (self : t) (arg : Z) : result scalar :=
  let arg := if arg <? 0 then size self + arg else arg in
  if arg >=? size self then Raise IndexError
  else nd_getitem (mem self) arg.

Inductive index : Type :=
| IInt (i : Z)
| ISlice (s : slice)
| IOther.

Inductive item : Type :=
| Element (v : scalar)
| Sub (b : t).

Definition __getitem__ (self : t) (arg : index) : result item :=
  match arg with
  | ISlice s => b <- getitem_slice self s ;; Ok (Sub b)
  | IInt i => v <- getitem_int self i ;; Ok (Element v)
  | IOther => Raise NotImplementedError
  end.

Definition avail_space (self : t) : Z := capacity self - size self.

Definition _sentry_capacity (self : t) (size_needed : Z) : result unit :=
  if size_needed >? avail_space self then Raise MemoryError else Ok tt.

(** [extend] mutates the buffer: the buffer after the call is returned
    with the result. *)
Definition extend (self : t) (array : ndarray) : result unit * t :=
  let needed := nd_size array in
  match _sentry_capacity self needed with
  | Raise e => (Raise e, self)
  | Ok _ =>
      let array := cudautils.astype array (dtype self) in
      let mem' :=
        mk_ndarray (nd_dtype (mem self))
          (copy_to_device_from (nd_data (mem self)) (size self) (nd_data array)) in
      (Ok tt, mk mem' (size self + needed) (capacity self))
  end.

Definition append (self : t) (element : scalar) : result unit * t :=
  match _sentry_capacity self 1 with
  | Raise e => (Raise e, self)
  | Ok _ => extend self (mk_ndarray (dtype self) [cast_scalar (dtype self) element])
  end.

Definition astype (self : t) (d : np_dtype) : t :=
  if dtype_eqb (dtype self) d then self
  else __init__ (cudautils.astype (mem self) d) None None.

End Buffer.

(** ** [Series]: data and null-masks *)

Module Series.

(** The element strategy of a column.  [from_categorical], the only
    place that installs another strategy, needs the module
    [categorical], which is not part of [dataframe.py]. *)
Inductive SeriesImpl : Type :=
| NumericalSeriesImpl (d : np_dtype).

Record t : Type := mk {
  _size : Z;
  _dtype : np_dtype;
  _data : Buffer.t;
  _mask : option Buffer.t;
  _null_count : Z;
  _impl : SeriesImpl
}.

(** What [Series.from_any] accepts. *)
Inductive arbitrary : Type :=
| ASeries (s : t)
| ABuffer (b : Buffer.t)
| AArray (a : ndarray).

(** [__init__]; the cffi view that its last statement makes for libgdf
    holds no state of the column and is left out. *)
Definition __init__ (size : Z) (dtype : np_dtype) (buffer : Buffer.t)
    (mask : option Buffer.t) (null_count : option Z)
    (impl : option SeriesImpl) : t :=
  let impl := match impl with
              | None => NumericalSeriesImpl dtype
              | Some i => i
              end in
  let null_count :=
    match null_count with
    | None =>
        match mask with
        | Some m =>
            let nnz := cudautils.count_nonzero_mask (Buffer.mem m) in
            size - nnz
        | None => 0
        end
    | Some n => n
    end in
  mk size dtype buffer mask null_count impl.

Definition from_buffer (buffer : Buffer.t) : t :=
  __init__ (Buffer.size buffer) (Buffer.dtype buffer) buffer None None None.

Definition from_array (array : ndarray) : t :=
  from_buffer (Buffer.__init__ array None None).

Definition from_any (a : arbitrary) : t :=
  match a with
  | ASeries s => s
  | ABuffer b => from_buffer b
  | AArray arr => from_array arr
  end.

(** The keyword arguments of [_copy_construct]: [None] for a keyword
    that is not given.  The keywords [mask] and [null_count] can be
    given the value [None]. *)
Record kwargs : Type := mk_kwargs {
  kw_size : option Z;
  kw_dtype : option np_dtype;
  kw_buffer : option Buffer.t;
  kw_mask : option (option Buffer.t);
  kw_null_count : option (option Z);
  kw_impl : option SeriesImpl
}.

Definition _copy_construct (self : t) (kw : kwargs) : t :=
  let get {A : Type} (o : option A) (d : A) :=
    match o with Some v => v | None => d end in
  __init__ (get (kw_size kw) (_size self))
           (get (kw_dtype kw) (_dtype self))
           (get (kw_buffer kw) (_data self))
           (get (kw_mask kw) (_mask self))
           (get (kw_null_count kw) (Some (_null_count self)))
           (Some (get (kw_impl kw) (_impl self))).

(** The [mask] argument of [set_mask]: a [Buffer] or an array. *)
Inductive mask_like : Type :=
| MBuffer (b : Buffer.t)
| MArray (a : ndarray).

(** [if not isinstance(mask, Buffer): mask = Buffer(mask)] *)
Definition as_buffer (mask : mask_like) : Buffer.t :=
  match mask with
  | MBuffer b => b
  | MArray a => Buffer.__init__ a None None
  end.

Definition set_mask (self : t) (mask : mask_like) (null_count : option Z)
    : result t :=
  let mask := as_buffer mask in
  if negb (dtype_eqb (Buffer.dtype mask) uint8 || dtype_eqb (Buffer.dtype mask) int8)
  then Raise ValueError
  else Ok (_copy_construct self
             (mk_kwargs None None None (Some (Some mask)) (Some null_count) None)).

Definition from_masked_array (data : arbitrary) (mask : mask_like)
    (null_count : option Z) : result t :=
  set_mask (from_any data) mask null_count.

Definition __len__ (self : t) : Z := _size self.

Definition dtype (self : t) : np_dtype := _dtype self.

Definition data (self : t) : Buffer.t := _data self.

Definition null_count (self : t) : Z := _null_count self.

Definition has_null_mask (self : t) : bool :=
  match _mask self with Some _ => true | None => false end.

Definition nullmask (self : t) : result Buffer.t :=
  match _mask self with
  | Some m => Ok m
  | None => Raise ValueError
  end.

(** [arg.start if arg.start else 0]: [None] and [0] both give the
    default. *)
Definition or_default (o : option Z) (d : Z) : Z :=
  match o with
  | None => d
  | Some v => if v =? 0 then d else v
  end.

(** [__getitem__], the branch of a slice. *)
Definition getitem_slice (self : t) (arg : slice) : result t :=
  if null_count self >? 0 then
    let start := or_default (start arg) 0 in
    let stop := or_default (stop arg) (__len__ self) in
    _ <- match step arg with
         | Some st => if negb (st =? 1) then Raise NotImplementedError else Ok tt
         | None => Ok tt
         end ;;
    let maskslice :=
      mk_slice (Some (utils.calc_chunk_size start utils.mask_bitsize))
               (Some (utils.calc_chunk_size stop utils.mask_bitsize))
               None in
    subdata <- nd_getslice (Buffer.mem (_data self)) arg ;;
    match _mask self with
    | None => Raise AttributeError
    | Some m =>
        submask <- nd_getslice (Buffer.mem m) maskslice ;;
        Ok (_copy_construct self
              (mk_kwargs (Some (nd_size subdata)) None
                 (Some (Buffer.__init__ subdata None None))
                 (Some (Some (Buffer.__init__ submask None None)))
                 (Some None) None))
    end
  else
    newbuffer <- Buffer.getitem_slice (_data self) arg ;;
    Ok (_copy_construct self
          (mk_kwargs (Some (Buffer.size newbuffer)) None (Some newbuffer)
             (Some None) (Some None) None)).

(** [__getitem__], the branch of an integer: the element, or [None] at
    a null. *)
Definition getitem_int (self : t) (arg : Z) : result (option scalar) :=
  val <- Buffer.getitem_int (_data self) arg ;;
  valid <- match _mask self with
           | Some m => cudautils.mask_get (Buffer.getitem_int m) arg
           | None => Ok 1
           end ;;
  Ok (if valid =? 0 then None else Some val).

Inductive index : Type :=
| IInt (i : Z)
| ISlice (s : slice)
| IOther.

Inductive item : Type :=
| Element (v : option scalar)
| Sub (s : t).

Definition __getitem__ (self : t) (arg : index) : result item :=
  match arg with
  | ISlice s => r <- getitem_slice self s ;; Ok (Sub r)
  | IInt i => v <- getitem_int self i ;; Ok (Element v)
  | IOther => Raise NotImplementedError
  end.

Definition __bool__ (self : t) : result bool := Raise TypeError.

(** The loop of [append]: [newbuf] is extended in place, one source
    buffer after the other. *)
Fixpoint extend_each (newbuf : Buffer.t) (bufs : list Buffer.t)
    : result unit * Buffer.t :=
  match bufs with
  | [] => (Ok tt, newbuf)
  | buf :: rest =>
      match Buffer.extend newbuf (Buffer.to_gpu_array buf) with
      | (Raise e, newbuf') => (Raise e, newbuf')
      | (Ok _, newbuf') => extend_each newbuf' rest
      end
  end.

Definition append (self : t) (a : arbitrary) : result t :=
  let other := from_any a in
  let newsize := __len__ self + __len__ other in
  let mem := device_array newsize (Buffer.dtype (data self)) in
  let newbuf := Buffer.from_empty mem in
  match extend_each newbuf [_data self; _data other] with
  | (Raise e, _) => Raise e
  | (Ok _, newbuf) => Ok (from_any (ABuffer newbuf))
  end.

Definition fillna (self : t) (value : scalar) : t :=
  match _mask self with
  | None => self
  | Some m =>
      let out := cudautils.fillna (Buffer.to_gpu_array (_data self))
                                  (Buffer.to_gpu_array m) value in
      from_array out
  end.

Definition astype (self : t) (d : np_dtype) : t :=
  if dtype_eqb d (dtype self) then self
  else from_buffer (Buffer.astype (data self) d).

Definition _copy_to_dense_buffer (self : t) : result Buffer.t :=
  let data := Buffer.to_gpu_array (_data self) in
  match _mask self with
  | None => Raise AttributeError
  | Some m =>
      let mask := Buffer.to_gpu_array m in
      let '(nnz, mem) := cudautils.copy_to_dense data mask in
      Ok (Buffer.__init__ mem (Some nnz) (Some (nd_size mem)))
  end.

(** The [fillna] argument of [to_dense_buffer], [to_array] and
    [to_gpu_array]. *)
Inductive fill : Type :=
| FillNone
| FillPandas
| FillOther (s : string).

(** [to_dense_buffer] returns a [Buffer], except in the ['pandas']
    branch of a masked column, where it returns what [col.fillna]
    returns, a [Series]. *)
Inductive dense : Type :=
| DBuffer (b : Buffer.t)
| DSeries (s : t).

Definition to_dense_buffer (self : t) (fillna_ : fill) : result dense :=
  match fillna_ with
  | FillOther _ => Raise ValueError
  | _ =>
      if has_null_mask self then
        match fillna_ with
        | FillPandas =>
            let col := if negb (dkind_eqb (kind (dtype self)) kind_f)
                       then astype self float64
                       else self in
            Ok (DSeries (fillna col nan))
        | _ =>
            b <- _copy_to_dense_buffer self ;;
            Ok (DBuffer b)
        end
      else Ok (DBuffer (_data self))
  end.

(** [to_gpu_array()] with the default [fillna=None], as it is called on
    the Series that [to_dense_buffer] returns: in that call
    [to_dense_buffer] returns a [Buffer]. *)
Definition dense_gpu_array (self : t) : result ndarray :=
  if has_null_mask self then
    b <- _copy_to_dense_buffer self ;;
    Ok (Buffer.to_gpu_array b)
  else Ok (Buffer.to_gpu_array (_data self)).

(** [self.to_dense_buffer(fillna=fillna).to_gpu_array()]: on a
    [Series], [to_gpu_array()] is the call with [fillna=None]. *)
Definition to_gpu_array (self : t) (fillna_ : fill) : result ndarray :=
  d <- to_dense_buffer self fillna_ ;;
  match d with
  | DBuffer b => Ok (Buffer.to_gpu_array b)
  | DSeries s => dense_gpu_array s
  end.

Definition to_array (self : t) (fillna_ : fill) : result ndarray :=
  to_gpu_array self fillna_.

(** [self.to_dense_buffer().to_gpu_array()] is [self.to_gpu_array()]. *)
Definition min (self : t) : result scalar :=
  arr <- to_gpu_array self FillNone ;;
  let maxval := utils.max (utils.get_numeric_type_info (dtype self)) in
  Ok (cudautils.compute_min arr maxval).

Definition max (self : t) : result scalar :=
  arr <- to_gpu_array self FillNone ;;
  let minval := utils.min (utils.get_numeric_type_info (dtype self)) in
  Ok (cudautils.compute_max arr minval).


(** [_empty_like]: a new Series with the same length. *)
Definition _empty_like (self : t) (dtype : np_dtype) (has_mask : bool)
    (impl : SeriesImpl) : t :=
  let data := device_array (__len__ self) dtype in
  let buffer := Buffer.__init__ data None None in
  if has_mask then
    let mask_size := utils.calc_chunk_size (nd_size data) utils.mask_bitsize in
    let mask := device_array mask_size utils.mask_dtype in
    _copy_construct self
      (mk_kwargs None (Some dtype) (Some buffer)
         (Some (Some (Buffer.__init__ mask None None)))
         (Some (Some (nd_size data))) (Some impl))
  else
    _copy_construct self
      (mk_kwargs None (Some dtype) (Some buffer) None None (Some impl)).

End Series.

(** ** [DataFrame]: a GPU dataframe *)

Module DataFrame.

(** [_cols] is an [OrderedDict]: an association list in insertion order,
    without duplicate names. *)
Record t : Type := mk {
  _size : Z;
  _cols : list (string * Series.t)
}.

Fixpoint lookup (name : string) (cols : list (string * Series.t))
    : option Series.t :=
  match cols with
  | [] => None
  | (k, v) :: rest => if String.eqb k name then Some v else lookup name rest
  end.

Definition contains (name : string) (cols : list (string * Series.t)) : bool :=
  match lookup name cols with Some _ => true | None => false end.

(** [d[name] = v]: the value of a name that is present is replaced where
    it stands; a new name goes to the end. *)
Fixpoint dict_set (name : string) (v : Series.t)
    (cols : list (string * Series.t)) : list (string * Series.t) :=
  match cols with
  | [] => [(name, v)]
  | (k, w) :: rest =>
      if String.eqb k name then (k, v) :: rest
      else (k, w) :: dict_set name v rest
  end.

(** A dataframe built without an initializer. *)
Definition empty : t := mk 0 [].

Definition __getitem__ (self : t) (name : string) : result Series.t :=
  match lookup name (_cols self) with
  | Some c => Ok c
  | None => Raise KeyError
  end.

Definition __len__ (self : t) : Z := _size self.

Definition columns (self : t) : list string := map fst (_cols self).

Definition _sentry_column_size (self : t) (size : Z) : result unit :=
  match _cols self with
  | [] => Ok tt
  | _ => if negb (_size self =? size) then Raise ValueError else Ok tt
  end.

(** [add_column] mutates the dataframe: the dataframe after the call is
    returned with the result. *)
Definition add_column (self : t) (name : string) (data : Series.arbitrary)
    : result unit * t :=
  if contains name (_cols self) then (Raise NameError, self)
  else
    let series := Series.from_any data in
    match _sentry_column_size self (Series.__len__ series) with
    | Raise e => (Raise e, self)
    | Ok _ =>
        (Ok tt, mk (Series.__len__ series) (dict_set name series (_cols self)))
    end.

(** [__setitem__]: [col] is a [Series]; on the branch of a name that is
    present the object is stored as it is given. *)
Definition __setitem__ (self : t) (name : string) (col : Series.t)
    : result unit * t :=
  if contains name (_cols self)
  then (Ok tt, mk (_size self) (dict_set name col (_cols self)))
  else add_column self name (Series.ASeries col).

(** A two-dimensional array in "F" order: [m_data] holds the columns one
    after the other, element [(r, c)] at position [c * m_nrow + r]. *)
Record matrix : Type := mk_matrix {
  m_nrow : Z;
  m_ncol : Z;
  m_dtype : np_dtype;
  m_data : list scalar
}.

Definition device_matrix (nrow ncol : Z) (d : np_dtype) : matrix :=
  mk_matrix nrow ncol d (repeat (zero_of d) (Z.to_nat (nrow * ncol))).

(** [matrix[:, colidx]] *)
Definition column (m : matrix) (colidx : Z) : list scalar :=
  firstn (Z.to_nat (m_nrow m)) (skipn (Z.to_nat (colidx * m_nrow m)) (m_data m)).

(** [matrix[:, colidx].copy_to_device(dense)] *)
Definition copy_column (m : matrix) (colidx : Z) (dense : ndarray) : matrix :=
  let lo := Z.to_nat (colidx * m_nrow m) in
  let n := Z.to_nat (m_nrow m) in
  mk_matrix (m_nrow m) (m_ncol m) (m_dtype m)
    (firstn lo (m_data m)
     ++ copy_to_device (column m colidx) (nd_data dense)
     ++ skipn (lo + n) (m_data m)).

Fixpoint select (self : t) (names : list string) : result (list Series.t) :=
  match names with
  | [] => Ok []
  | k :: rest =>
      c <- __getitem__ self k ;;
      cs <- select self rest ;;
      Ok (c :: cs)
  end.

(** The loop that copies the dense columns into the matrix. *)
Fixpoint fill_columns (m : matrix) (colidx : Z) (cols : list Series.t)
    : result matrix :=
  match cols with
  | [] => Ok m
  | inpcol :: rest =>
      dense <- Series.to_gpu_array inpcol Series.FillPandas ;;
      fill_columns (copy_column m colidx dense) (colidx + 1) rest
  end.

(** [dtype = cols[0]] names the first column, not its dtype; numpy reads
    the dtype of an object off its [dtype] attribute, so that
    [dtype != c.dtype] compares the dtype of the first column with the
    one of [c], and [cuda.device_array(..., dtype=dtype)] allocates with
    the dtype of the first column. *)
Definition as_gpu_matrix (self : t) (columns_ : option (list string))
    : result matrix :=
  let columns_ := match columns_ with
                  | None => columns self
                  | Some l => l
                  end in
  cols <- select self columns_ ;;
  let ncol := Z.of_nat (length cols) in
  let nrow := __len__ self in
  if ncol <? 1 then Raise ValueError
  else if nrow <? 1 then Raise ValueError
  else
    match cols with
    | [] => Raise IndexError
    | c0 :: _ =>
        let dtype := Series.dtype c0 in
        if existsb (fun c => negb (dtype_eqb dtype (Series.dtype c))) cols
        then Raise ValueError
        else if existsb (fun '(k, c) => Series.has_null_mask c) (_cols self)
        then Raise ValueError
        else
          let matrix := device_matrix nrow ncol dtype in
          fill_columns matrix 0 cols
    end.

Definition as_matrix (self : t) (columns_ : option (list string))
    : result matrix :=
  as_gpu_matrix self columns_.

(** [del d[name]] *)
Fixpoint dict_del (name : string) (cols : list (string * Series.t))
    : list (string * Series.t) :=
  match cols with
  | [] => []
  | (k, w) :: rest =>
      if String.eqb k name then rest else (k, w) :: dict_del name rest
  end.

(** [drop_column] mutates the dataframe: the dataframe after the call is
    returned with the result. *)
Definition drop_column (self : t) (name : string) : result unit * t :=
  if negb (contains name (_cols self)) then (Raise NameError, self)
  else (Ok tt, mk (_size self) (dict_del name (_cols self))).

Definition __delitem__ (self : t) (name : string) : result unit * t :=
  drop_column self name.

(** The loop of [__init__] over the initializer. *)
Fixpoint add_columns (self : t) (name_series : list (string * Series.arbitrary))
    : result unit * t :=
  match name_series with
  | [] => (Ok tt, self)
  | (k, series) :: rest =>
      match add_column self k series with
      | (Raise e, self') => (Raise e, self')
      | (Ok _, self') => add_columns self' rest
      end
  end.

Definition __init__ (name_series : option (list (string * Series.arbitrary)))
    : result t :=
  let self := mk 0 [] in
  match name_series with
  | None => Ok self
  | Some l =>
      match add_columns self l with
      | (Raise e, _) => Raise e
      | (Ok _, self') => Ok self'
      end
  end.

(** The loop of [copy]: [df[k] = self[k]] for every name of [self]. *)
Fixpoint copy_each (self df : t) (names : list string) : result unit * t :=
  match names with
  | [] => (Ok tt, df)
  | k :: rest =>
      match __getitem__ self k with
      | Raise e => (Raise e, df)
      | Ok c =>
          match __setitem__ df k c with
          | (Raise e, df') => (Raise e, df')
          | (Ok _, df') => copy_each self df' rest
          end
      end
  end.

(** [copy]: a shallow copy. *)
Definition copy (self : t) : result t :=
  match copy_each self (mk 0 []) (columns self) with
  | (Raise e, _) => Raise e
  | (Ok _, df) => Ok df
  end.





End DataFrame.

(** ** [Loc]: selection by label *)

Module Loc.

(** The argument of [__getitem__]: a pair of a row slice and a sequence
    of column names, a row slice, or something else.  The rows of a pair
    are a slice here, as the docstring of [DataFrame.loc] has them. *)
Inductive arg : Type :=
| ATuple (row_slice : slice) (col_slice : list string)
| ASlice (row_slice : slice)
| AOther.

(** The loop of [__getitem__]: [df[col] = self._df[col][row_slice]]. *)
Fixpoint slice_each (_df df : DataFrame.t) (row_slice : slice)
    (col_slice : list string) : result unit * DataFrame.t :=
  match col_slice with
  | [] => (Ok tt, df)
  | col :: rest =>
      match (c <- DataFrame.__getitem__ _df col ;;
             Series.getitem_slice c row_slice) with
      | Raise e => (Raise e, df)
      | Ok c' =>
          match DataFrame.__setitem__ df col c' with
          | (Raise e, df') => (Raise e, df')
          | (Ok _, df') => slice_each _df df' row_slice rest
          end
      end
  end.

Definition __getitem__ (_df : DataFrame.t) (a : arg) : result DataFrame.t :=
  p <- match a with
       | ATuple row_slice col_slice => Ok (row_slice, col_slice)
       | ASlice row_slice => Ok (row_slice, DataFrame.columns _df)
       | AOther => Raise TypeError
       end ;;
  let '(row_slice, col_slice) := p in
  match slice_each _df (DataFrame.mk 0 []) row_slice col_slice with
  | (Raise e, _) => Raise e
  | (Ok _, df) => Ok df
  end.

End Loc.

(** ** Module-level helpers *)

Definition _make_mask (size : Z) : ndarray :=
  let size := utils.calc_chunk_size size utils.mask_bitsize in
  device_array size utils.mask_dtype.

(** ** Invariants of the data model

    The invariants that section 3 of the specification gives for a
    [Buffer], a [Series] and a [DataFrame].  The constructors of
    [dataframe.py] establish them; its classes do not check them. *)

(** [size <= capacity], and the capacity lies within the memory. *)
Definition Buffer_wf (b : Buffer.t) : Prop :=
  0 <= Buffer.size b <= Buffer.capacity b /\
  Buffer.capacity b <= nd_size (Buffer.mem b).

(** [size == data.size]; a mask holds one bit for every row; a column
    without a mask has no nulls. *)
Definition Series_wf (s : Series.t) : Prop :=
  Buffer_wf (Series._data s) /\
  Series._size s = Buffer.size (Series._data s) /\
  match Series._mask s with
  | Some m =>
      Buffer_wf m /\
      Buffer.size m = utils.calc_chunk_size (Series._size s) utils.mask_bitsize
  | None => Series._null_count s = 0
  end.

(** Every column has [row_count] rows. *)
Definition DataFrame_wf (df : DataFrame.t) : Prop :=
  Forall (fun kc => Series_wf (snd kc) /\
                    Series._size (snd kc) = DataFrame._size df)
         (DataFrame._cols df).



(** The names of an [OrderedDict] are distinct. *)
Definition unique_names (df : DataFrame.t) : Prop :=
  NoDup (DataFrame.columns df).

(** The dense view of the data of a column. *)
Definition dense_data (c : Series.t) : list scalar :=
  nd_data (Buffer.to_gpu_array (Series._data c)).


(** The columns that an initializer of a dataframe stands for: every
    value converted by [Series.from_any]. *)
Definition converted (l : list (string * Series.arbitrary))
    : list (string * Series.t) :=
  map (fun p => (fst p, Series.from_any (snd p))) l.


(** An element that is an integer. *)
Definition is_int (v : scalar) : Prop :=
  match v with I _ => True | F _ => False end.

(** An array of integers, for the examples. *)
Definition ints (d : np_dtype) (l : list Z) : ndarray := mk_ndarray d (map I l).

(** ** Statements of the specification, as they are written

    The statements below are the ones that the code does not satisfy as
    they stand; each is refuted further down, next to the statement that
    holds. *)

(** "After [extend(a)] then [extend(b)] (within capacity), the resulting
    dense view equals [concat(a, b)]", for every buffer. *)
Definition extend_concat_stated : Prop :=
  forall (b b1 b2 : Buffer.t) (a1 a2 : ndarray),
    Buffer_wf b ->
    nd_size a1 <= Buffer.avail_space b ->
    Buffer.extend b a1 = (Ok tt, b1) ->
    nd_size a2 <= Buffer.avail_space b1 ->
    Buffer.extend b1 a2 = (Ok tt, b2) ->
    nd_data (Buffer.to_gpu_array b2) = nd_data a1 ++ nd_data a2.

(** "[a.append(b)] returns a new Series of length [len(a) + len(b)] whose
    data buffer is the element-wise concatenation of [a]'s data buffer
    followed by [b]'s data buffer, and the result carries no null mask",
    for every pair of Series. *)
Definition append_concat_stated : Prop :=
  forall a b r : Series.t,
    Series_wf a -> Series_wf b ->
    Series.append a (Series.ASeries b) = Ok r ->
    Series.__len__ r = Series.__len__ a + Series.__len__ b /\
    nd_data (Buffer.to_gpu_array (Series.data r))
    = nd_data (Buffer.to_gpu_array (Series.data a))
        ++ nd_data (Buffer.to_gpu_array (Series.data b)) /\
    Series.has_null_mask r = false /\
    Series.null_count r = 0.


(** "For every mask whose element type is not a single-byte type,
    [set_mask(mask)] fails with [TypeError]". *)
Definition set_mask_TypeError_stated : Prop :=
  forall (s : Series.t) (mask : Series.mask_like) (null_count : option Z),
    itemsize (Buffer.dtype (Series.as_buffer mask)) <> 1 ->
    Series.set_mask s mask null_count = Raise TypeError.

(** * Properties *)

(** ** Sequences *)

Section SequenceFacts.
Context {A : Type}.
Implicit Types l src : list A.

Lemma slice1_range l (a b : Z) :
  0 <= a <= b -> b <= Z.of_nat (length l) ->
  slice1 l (Some a) (Some b)
  = firstn (Z.to_nat (b - a)) (skipn (Z.to_nat a) l).
Proof.
  intros Hab Hb. unfold slice1, adjust_bound.
  destruct (Z.ltb_spec a 0); [lia|].
  destruct (Z.ltb_spec b 0); [lia|].
  rewrite !Z.min_l by lia. reflexivity.
Qed.

Lemma slice1_prefix l (n : Z) :
  0 <= n <= Z.of_nat (length l) ->
  slice1 l None (Some n) = firstn (Z.to_nat n) l.
Proof.
  intros Hn. unfold slice1, adjust_bound.
  destruct (Z.ltb_spec n 0); [lia|].
  rewrite Z.min_l by lia. rewrite Z.sub_0_r. reflexivity.
Qed.

Lemma length_slice1_range l (a b : Z) :
  0 <= a <= b -> b <= Z.of_nat (length l) ->
  Z.of_nat (length (slice1 l (Some a) (Some b))) = b - a.
Proof.
  intros Hab Hb. rewrite slice1_range by assumption.
  rewrite length_firstn, length_skipn. lia.
Qed.

Lemma getitem_inside l (i : Z) :
  0 <= i < Z.of_nat (length l) ->
  exists x, nth_error l (Z.to_nat i) = Some x /\ getitem l i = Ok x.
Proof.
  intros Hi. unfold getitem.
  destruct (Z.ltb_spec i 0); [lia|].
  destruct (Z.ltb_spec i 0); [lia|].
  destruct (Z.leb_spec (Z.of_nat (length l)) i); [lia|]. cbn [orb].
  destruct (nth_error l (Z.to_nat i)) as [x|] eqn:E.
  - exists x. split; reflexivity.
  - apply nth_error_None in E. lia.
Qed.

Lemma getitem_slice1 l (a b i : Z) :
  0 <= a <= b -> b <= Z.of_nat (length l) -> 0 <= i < b - a ->
  getitem (slice1 l (Some a) (Some b)) i = getitem l (a + i).
Proof.
  intros Hab Hb Hi.
  destruct (getitem_inside l (a + i)) as (x & Hx & ->); [lia|].
  destruct (getitem_inside (slice1 l (Some a) (Some b)) i) as (y & Hy & ->).
  { rewrite length_slice1_range by assumption. lia. }
  rewrite slice1_range in Hy by assumption.
  rewrite nth_error_firstn, nth_error_skipn in Hy.
  destruct (Nat.ltb_spec (Z.to_nat i) (Z.to_nat (b - a))); [|lia].
  replace (Z.to_nat a + Z.to_nat i)%nat with (Z.to_nat (a + i)) in Hy by lia.
  congruence.
Qed.

Lemma copy_to_device_fits (dst src : list A) :
  (length src <= length dst)%nat ->
  copy_to_device dst src = src ++ skipn (length src) dst.
Proof.
  intros H. unfold copy_to_device. rewrite firstn_all2 by assumption.
  reflexivity.
Qed.

Lemma copy_to_device_from_fits l (a : Z) src :
  0 <= a -> a + Z.of_nat (length src) <= Z.of_nat (length l) ->
  copy_to_device_from l a src
  = firstn (Z.to_nat a) l ++ src
      ++ skipn (Z.to_nat a + length src) l.
Proof.
  intros Ha Hfit. unfold copy_to_device_from, adjust_bound.
  destruct (Z.ltb_spec a 0); [lia|]. rewrite Z.min_l by lia.
  rewrite copy_to_device_fits by (rewrite length_skipn; lia).
  rewrite skipn_skipn. f_equal. f_equal. f_equal. lia.
Qed.

Lemma firstn_app_exact l1 l2 (n : nat) :
  n = length l1 -> firstn n (l1 ++ l2) = l1.
Proof.
  intros ->. rewrite firstn_app, Nat.sub_diag, firstn_all2 by lia.
  cbn. apply app_nil_r.
Qed.
End SequenceFacts.

(** ** [Buffer] *)

Lemma nd_size_astype (a : ndarray) (d : np_dtype) :
  nd_size (cudautils.astype a d) = nd_size a.
Proof.
  unfold cudautils.astype, nd_size.
  destruct (dtype_eqb (nd_dtype a) d); cbn; [|rewrite length_map]; reflexivity.
Qed.

Lemma dtype_eqb_refl (d : np_dtype) : dtype_eqb d d = true.
Proof. destruct d as [[]|[]|]; reflexivity. Qed.

Lemma dtype_eqb_eq (d e : np_dtype) : dtype_eqb d e = true <-> d = e.
Proof.
  split; [|intros ->; apply dtype_eqb_refl].
  destruct d as [[]|[]|], e as [[]|[]|]; cbn; congruence.
Qed.

Lemma astype_same (a : ndarray) (d : np_dtype) :
  nd_dtype a = d -> cudautils.astype a d = a.
Proof.
  intros <-. unfold cudautils.astype. rewrite dtype_eqb_refl. reflexivity.
Qed.

Lemma Buffer_dense_data (b : Buffer.t) :
  Buffer_wf b ->
  nd_data (Buffer.to_gpu_array b)
  = firstn (Z.to_nat (Buffer.size b)) (nd_data (Buffer.mem b)).
Proof.
  intros [Hs Hc]. unfold Buffer.to_gpu_array, nd_slice1, nd_size in *. cbn.
  apply slice1_prefix. lia.
Qed.

Lemma Buffer_dense_dtype (b : Buffer.t) :
  nd_dtype (Buffer.to_gpu_array b) = Buffer.dtype b.
Proof. reflexivity. Qed.

Lemma Buffer_dense_size (b : Buffer.t) :
  Buffer_wf b -> nd_size (Buffer.to_gpu_array b) = Buffer.size b.
Proof.
  intros H. unfold nd_size at 1. rewrite Buffer_dense_data by assumption.
  destruct H as [Hs Hc]. unfold nd_size in Hc. rewrite length_firstn. lia.
Qed.

(** A buffer whose size equals the length of its memory is its memory. *)
Lemma Buffer_init_wf (a : ndarray) : Buffer_wf (Buffer.__init__ a None None).
Proof.
  unfold Buffer_wf, Buffer.__init__, cudautils.to_device, nd_size; cbn.
  lia.
Qed.

Lemma Buffer_init_dense (a : ndarray) :
  Buffer.to_gpu_array (Buffer.__init__ a None None) = a.
Proof.
  destruct a as [d l].
  unfold Buffer.to_gpu_array, nd_slice1, Buffer.__init__, cudautils.to_device.
  cbn. f_equal. unfold nd_size; cbn.
  rewrite slice1_prefix by lia. apply firstn_all2. lia.
Qed.

(** A request that exceeds the available space raises [MemoryError]
    before anything is written: the buffer is the one before the call. *)
Lemma Buffer_extend_raise (b : Buffer.t) (a : ndarray) :
  nd_size a > Buffer.avail_space b ->
  Buffer.extend b a = (Raise MemoryError, b).
Proof.
  intros H. unfold Buffer.extend, Buffer._sentry_capacity.
  destruct (Z.gtb_spec (nd_size a) (Buffer.avail_space b)); [reflexivity|lia].
Qed.

(** A request that fits is written at the old size, after the cast to the
    dtype of the buffer, and the size advances by the length written. *)
Lemma Buffer_extend_ok (b : Buffer.t) (a : ndarray) :
  Buffer_wf b ->
  nd_size a <= Buffer.avail_space b ->
  exists b',
    Buffer.extend b a = (Ok tt, b') /\
    Buffer_wf b' /\
    Buffer.size b' = Buffer.size b + nd_size a /\
    Buffer.capacity b' = Buffer.capacity b /\
    Buffer.dtype b' = Buffer.dtype b /\
    nd_size (Buffer.mem b') = nd_size (Buffer.mem b) /\
    nd_data (Buffer.to_gpu_array b')
    = nd_data (Buffer.to_gpu_array b)
        ++ nd_data (cudautils.astype a (Buffer.dtype b)).
Proof.
  intros Hwf Hfit. pose proof Hwf as [Hs Hc].
  unfold Buffer.avail_space in Hfit.
  unfold Buffer.extend, Buffer._sentry_capacity, Buffer.avail_space.
  destruct (Z.gtb_spec (nd_size a) (Buffer.capacity b - Buffer.size b)); [lia|].
  eexists. split; [reflexivity|].
  set (src := nd_data (cudautils.astype a (Buffer.dtype b))).
  assert (Hsrc : Z.of_nat (length src) = nd_size a)
    by (subst src; apply (nd_size_astype a (Buffer.dtype b))).
  assert (Hmem : copy_to_device_from (nd_data (Buffer.mem b)) (Buffer.size b) src
                 = firstn (Z.to_nat (Buffer.size b)) (nd_data (Buffer.mem b))
                     ++ src
                     ++ skipn (Z.to_nat (Buffer.size b) + length src)
                          (nd_data (Buffer.mem b))).
  { apply copy_to_device_from_fits; unfold nd_size in *; lia. }
  assert (Hlen : nd_size (mk_ndarray (nd_dtype (Buffer.mem b))
                   (copy_to_device_from (nd_data (Buffer.mem b)) (Buffer.size b) src))
                 = nd_size (Buffer.mem b)).
  { unfold nd_size in *; cbn. rewrite Hmem.
    rewrite !length_app, length_firstn, length_skipn. lia. }
  assert (Hwf' : Buffer_wf
            (Buffer.mk (mk_ndarray (nd_dtype (Buffer.mem b))
                          (copy_to_device_from (nd_data (Buffer.mem b))
                             (Buffer.size b) src))
                       (Buffer.size b + nd_size a) (Buffer.capacity b))).
  { unfold Buffer_wf; cbn [Buffer.size Buffer.capacity Buffer.mem].
    rewrite Hlen. unfold nd_size in *. lia. }
  repeat split; try assumption; try (cbn; unfold nd_size in *; lia).
  rewrite (Buffer_dense_data _ Hwf'), (Buffer_dense_data _ Hwf).
  cbn [Buffer.size Buffer.mem nd_data]. rewrite Hmem.
  rewrite app_assoc. apply firstn_app_exact.
  rewrite length_app, length_firstn. unfold nd_size in *. lia.
Qed.

(** The integer branch of [Buffer.__getitem__]. *)
Lemma Buffer_getitem_int_inside (b : Buffer.t) (i : Z) :
  Buffer_wf b -> 0 <= i < Buffer.size b ->
  Buffer.getitem_int b i = getitem (nd_data (Buffer.mem b)) i.
Proof.
  intros _ Hi. unfold Buffer.getitem_int.
  destruct (Z.ltb_spec i 0); [lia|].
  destruct (Z.geb_spec i (Buffer.size b)); [lia|]. reflexivity.
Qed.

Lemma Buffer_getitem_int_nonneg (b : Buffer.t) (i : Z) :
  Buffer_wf b -> 0 <= i < Buffer.size b ->
  exists v, nth_error (nd_data (Buffer.mem b)) (Z.to_nat i) = Some v /\
            Buffer.getitem_int b i = Ok v.
Proof.
  intros Hwf Hi. rewrite Buffer_getitem_int_inside by assumption.
  apply getitem_inside. destruct Hwf as [Hs Hc]. unfold nd_size in Hc. lia.
Qed.

Lemma Buffer_getitem_int_negative (b : Buffer.t) (i : Z) :
  Buffer_wf b -> - Buffer.size b <= i < 0 ->
  exists v, nth_error (nd_data (Buffer.mem b)) (Z.to_nat (Buffer.size b + i)) = Some v /\
            Buffer.getitem_int b i = Ok v.
Proof.
  intros Hwf Hi. unfold Buffer.getitem_int.
  destruct (Z.ltb_spec i 0); [|lia].
  destruct (Z.geb_spec (Buffer.size b + i) (Buffer.size b)); [lia|].
  apply getitem_inside. destruct Hwf as [Hs Hc]. unfold nd_size in Hc. lia.
Qed.

Lemma Buffer_getitem_int_above (b : Buffer.t) (i : Z) :
  0 <= Buffer.size b -> Buffer.size b <= i ->
  Buffer.getitem_int b i = Raise IndexError.
Proof.
  intros Hs Hi. unfold Buffer.getitem_int.
  destruct (Z.ltb_spec i 0); [lia|].
  destruct (Z.geb_spec i (Buffer.size b)); [reflexivity|lia].
Qed.

(** Below [-size] the normalised index is negative; it passes the bound
    check and indexes the memory from its end. *)
Lemma Buffer_getitem_int_below (b : Buffer.t) (i : Z) :
  Buffer_wf b -> i < - Buffer.size b ->
  Buffer.getitem_int b i
  = getitem (nd_data (Buffer.mem b)) (Buffer.size b + i).
Proof.
  intros [Hs Hc] Hi. unfold Buffer.getitem_int.
  destruct (Z.ltb_spec i 0); [|lia].
  destruct (Z.geb_spec (Buffer.size b + i) (Buffer.size b)); [lia|]. reflexivity.
Qed.

(** C3, as the code has it.  For every buffer [b] within its invariant and
    all arrays [a1] and [a2]: when [a1] is larger than the available space,
    [extend] raises [MemoryError] (the capacity error) and the buffer, its
    size and its elements, is unchanged; otherwise [extend] writes [a1],
    cast to the dtype of the buffer, at the old size and advances the size
    by [a1.size], so that the dense view after [extend(a1)] then
    [extend(a2)] is the dense view before the calls followed by [a1] and
    [a2], each cast to the dtype of the buffer.  On an empty buffer and
    arrays of its dtype this is [concat(a1, a2)]. *)
Theorem Buffer_extend_spec (b : Buffer.t) (a1 a2 : ndarray) :
  Buffer_wf b ->
  (nd_size a1 > Buffer.avail_space b ->
   Buffer.extend b a1 = (Raise MemoryError, b)) /\
  (nd_size a1 <= Buffer.avail_space b ->
   exists b1,
     Buffer.extend b a1 = (Ok tt, b1) /\
     Buffer.size b1 = Buffer.size b + nd_size a1 /\
     nd_data (Buffer.to_gpu_array b1)
     = nd_data (Buffer.to_gpu_array b)
         ++ nd_data (cudautils.astype a1 (Buffer.dtype b)) /\
     (nd_size a2 <= Buffer.avail_space b1 ->
      exists b2,
        Buffer.extend b1 a2 = (Ok tt, b2) /\
        Buffer.size b2 = Buffer.size b + nd_size a1 + nd_size a2 /\
        nd_data (Buffer.to_gpu_array b2)
        = nd_data (Buffer.to_gpu_array b)
            ++ nd_data (cudautils.astype a1 (Buffer.dtype b))
            ++ nd_data (cudautils.astype a2 (Buffer.dtype b)) /\
        (Buffer.size b = 0 ->
         nd_dtype a1 = Buffer.dtype b -> nd_dtype a2 = Buffer.dtype b ->
         nd_data (Buffer.to_gpu_array b2) = nd_data a1 ++ nd_data a2))).
Proof.
  intros Hwf. split; [apply Buffer_extend_raise|].
  intros Hfit1.
  destruct (Buffer_extend_ok b a1 Hwf Hfit1)
    as (b1 & E1 & Hwf1 & Hs1 & Hc1 & Hd1 & _ & Hv1).
  exists b1. repeat split; try assumption.
  intros Hfit2.
  destruct (Buffer_extend_ok b1 a2 Hwf1 Hfit2)
    as (b2 & E2 & Hwf2 & Hs2 & Hc2 & Hd2 & _ & Hv2).
  exists b2. rewrite Hd1 in Hv2.
  assert (Hv : nd_data (Buffer.to_gpu_array b2)
               = nd_data (Buffer.to_gpu_array b)
                   ++ nd_data (cudautils.astype a1 (Buffer.dtype b))
                   ++ nd_data (cudautils.astype a2 (Buffer.dtype b))).
  { rewrite Hv2, Hv1, <- app_assoc. reflexivity. }
  repeat split; try assumption; [lia|].
  intros Hempty Ht1 Ht2. rewrite Hv.
  rewrite (astype_same a1) by assumption.
  rewrite (astype_same a2) by assumption.
  rewrite (Buffer_dense_data b Hwf), Hempty. reflexivity.
Qed.

Lemma Buffer_extend_spec_witness :
  let b := Buffer.from_empty (device_array 3 int64) in
  Buffer_wf b /\
  exists b1 b2,
    Buffer.extend b (ints int64 [1]) = (Ok tt, b1) /\
    Buffer.extend b1 (ints int64 [2; 3]) = (Ok tt, b2) /\
    nd_data (Buffer.to_gpu_array b2) = [I 1; I 2; I 3].
Proof.
  intros b.
  assert (Hwf : Buffer_wf b) by (vm_compute; intuition discriminate).
  split; [exact Hwf|].
  destruct (Buffer_extend_spec b (ints int64 [1]) (ints int64 [2; 3]) Hwf)
    as [_ H].
  destruct H as (b1 & E1 & Hs1 & _ & H); [vm_compute; discriminate|].
  destruct H as (b2 & E2 & _ & _ & H).
  { unfold Buffer.avail_space. rewrite Hs1.
    injection E1 as <-. vm_compute. discriminate. }
  exists b1, b2. repeat split; try assumption.
  apply H; reflexivity.
Defined.

(** C3, as it is written, fails on a buffer that is not empty: the dense
    view keeps the elements that were there before the two calls. *)
Lemma extend_concat_stated_fails : ~ extend_concat_stated.
Proof.
  intros H.
  specialize (H (Buffer.mk (ints int64 [7; 0; 0]) 1 3)
                (Buffer.mk (ints int64 [7; 1; 0]) 2 3)
                (Buffer.mk (ints int64 [7; 1; 2]) 3 3)
                (ints int64 [1]) (ints int64 [2])).
  assert (Hwf : Buffer_wf (Buffer.mk (ints int64 [7; 0; 0]) 1 3))
    by (vm_compute; intuition discriminate).
  specialize (H Hwf).
  assert (E : nd_data (Buffer.to_gpu_array (Buffer.mk (ints int64 [7; 1; 2]) 3 3))
              = nd_data (ints int64 [1]) ++ nd_data (ints int64 [2])).
  { apply H; vm_compute; (reflexivity || discriminate). }
  vm_compute in E. discriminate E.
Qed.

(** C8 at [i = -5] on a buffer of size 3: the claim asks for an
    [IndexError], the code returns the element at position 1. *)
Theorem Buffer_getitem_int_below_range :
  let b := Buffer.__init__ (ints int64 [10; 20; 30]) None None in
  Buffer_wf b /\ Buffer.size b = 3 /\
  Buffer.getitem_int b (-5) = Ok (I 20) /\
  Buffer.getitem_int b (-5) <> Raise IndexError.
Proof.
  intros b. split; [apply Buffer_init_wf|].
  vm_compute. repeat split; discriminate.
Qed.

(** ** [Series] *)

(** The constructors establish the invariant. *)
Lemma Series_from_buffer_wf (b : Buffer.t) :
  Buffer_wf b -> Series_wf (Series.from_buffer b).
Proof. intros H. repeat split; apply H. Qed.

Lemma Series_from_array_wf (a : ndarray) : Series_wf (Series.from_array a).
Proof. apply Series_from_buffer_wf, Buffer_init_wf. Qed.

(** C10.  Converting a Series to a boolean raises [TypeError], whatever
    its length, dtype, contents and mask. *)
Theorem Series_bool_raises (s : Series.t) :
  Series.__bool__ s = Raise TypeError.
Proof. reflexivity. Qed.

Lemma itemsize_byte (d : np_dtype) :
  itemsize d = 1 <-> d = uint8 \/ d = int8.
Proof.
  split.
  - destruct d as [[]|[]|]; cbn; intros H; try discriminate H; auto.
  - intros [-> | ->]; reflexivity.
Qed.

(** C7, as the code has it.  A mask whose element type is not a
    single-byte type makes [set_mask] fail, with [ValueError]; for a mask
    of [uint8] or [int8] it returns a new Series that has the given mask in
    place of any prior one, with the other fields of the Series it was
    called on; the null count is the one given, or it is counted from the
    mask.  [set_mask] does not write to the Series it is called on: it is a
    function of it. *)
Theorem set_mask_spec (s : Series.t) (mask : Series.mask_like)
    (null_count : option Z) :
  (itemsize (Buffer.dtype (Series.as_buffer mask)) <> 1 ->
   Series.set_mask s mask null_count = Raise ValueError) /\
  (Buffer.dtype (Series.as_buffer mask) = uint8 \/
   Buffer.dtype (Series.as_buffer mask) = int8 ->
   exists s',
     Series.set_mask s mask null_count = Ok s' /\
     Series._mask s' = Some (Series.as_buffer mask) /\
     Series._size s' = Series._size s /\
     Series._dtype s' = Series._dtype s /\
     Series._data s' = Series._data s /\
     Series._impl s' = Series._impl s /\
     Series._null_count s'
     = match null_count with
       | Some n => n
       | None => Series._size s
                 - cudautils.count_nonzero_mask (Buffer.mem (Series.as_buffer mask))
       end).
Proof.
  unfold Series.set_mask. split.
  - intros H.
    destruct (dtype_eqb (Buffer.dtype (Series.as_buffer mask)) uint8) eqn:E8.
    { apply dtype_eqb_eq in E8. rewrite E8 in H. now contradiction H. }
    destruct (dtype_eqb (Buffer.dtype (Series.as_buffer mask)) int8) eqn:E8'.
    { apply dtype_eqb_eq in E8'. rewrite E8' in H. now contradiction H. }
    reflexivity.
  - intros H.
    assert (E : dtype_eqb (Buffer.dtype (Series.as_buffer mask)) uint8
                || dtype_eqb (Buffer.dtype (Series.as_buffer mask)) int8 = true).
    { destruct H as [-> | ->]; reflexivity. }
    rewrite E. cbn [negb]. eexists. split; [reflexivity|].
    destruct null_count; repeat split.
Qed.

Lemma set_mask_spec_witness :
  exists s',
    Series.set_mask (Series.from_array (ints int64 [10; 20; 30]))
                    (Series.MArray (ints uint8 [5])) None = Ok s' /\
    Series._null_count s' = 1.
Proof.
  destruct (set_mask_spec (Series.from_array (ints int64 [10; 20; 30]))
                          (Series.MArray (ints uint8 [5])) None) as [_ H].
  destruct H as (s' & E & _ & _ & _ & _ & _ & Hn); [left; reflexivity|].
  exists s'. split; [exact E|]. rewrite Hn. reflexivity.
Defined.

(** C7, as it is written, fails: a mask of [int32] makes [set_mask] raise
    [ValueError], not [TypeError]. *)
Lemma set_mask_TypeError_stated_fails : ~ set_mask_TypeError_stated.
Proof.
  intros H.
  specialize (H (Series.from_array (ints int64 [10; 20; 30]))
                (Series.MArray (ints int32 [5])) None).
  assert (E : Series.set_mask (Series.from_array (ints int64 [10; 20; 30]))
                (Series.MArray (ints int32 [5])) None = Raise TypeError).
  { apply H. vm_compute. discriminate. }
  vm_compute in E. discriminate E.
Qed.

(** With [fillna=None], [to_gpu_array] is the dense view: it never
    raises. *)
Lemma to_gpu_array_none (s : Series.t) :
  Series.to_gpu_array s Series.FillNone = Series.dense_gpu_array s.
Proof.
  unfold Series.to_gpu_array, Series.to_dense_buffer, Series.dense_gpu_array.
  destruct (Series.has_null_mask s); [|reflexivity].
  destruct (Series._copy_to_dense_buffer s); reflexivity.
Qed.




(** The three values of the example of the specification: 0, one half
    and 1. *)
Example scale_example_values :
  S754_zero false = float_of_Z 0 /\
  S754_finite false 4503599627370496 (-53)
  = SFdiv 53 1024 (float_of_Z 1) (float_of_Z 2) /\
  S754_finite false 4503599627370496 (-52) = float_of_Z 1.
Proof. vm_compute. repeat split. Qed.


(** The Series of this refutation is the one that [from_masked_array]
    builds from the data [0, 5, 10] and the mask byte [0b111]. *)
Example all_valid_masked_series :
  Series.from_masked_array (Series.AArray (ints int64 [0; 5; 10]))
                           (Series.MArray (ints uint8 [7])) None
  = Ok (Series.mk 3 int64 (Buffer.__init__ (ints int64 [0; 5; 10]) None None)
          (Some (Buffer.__init__ (ints uint8 [7]) None None)) 0
          (Series.NumericalSeriesImpl int64)).
Proof. reflexivity. Qed.

(** *** [to_dense_buffer(fillna='pandas')] *)

(** On a masked column of a dtype that is not a floating one, the cast
    [self.astype(np.float64)] gives a Series without the mask, on which
    [fillna] returns the Series itself: every stored element is cast, the
    ones under a null included, and nothing is filled. *)
Lemma to_dense_buffer_pandas_nonfloat (s : Series.t) :
  Series.has_null_mask s = true ->
  kind (Series.dtype s) <> kind_f ->
  Series.to_dense_buffer s Series.FillPandas
  = Ok (Series.DSeries
          (Series.from_buffer (Buffer.astype (Series.data s) float64))) /\
  Series.to_gpu_array s Series.FillPandas
  = Ok (Buffer.to_gpu_array (Buffer.astype (Series.data s) float64)).
Proof.
  intros Hm Hk.
  assert (E : Series.to_dense_buffer s Series.FillPandas
              = Ok (Series.DSeries
                      (Series.from_buffer (Buffer.astype (Series.data s) float64)))).
  { unfold Series.to_dense_buffer. rewrite Hm.
    assert (Ek : dkind_eqb (kind (Series.dtype s)) kind_f = false)
      by (destruct (kind (Series.dtype s)); [reflexivity|reflexivity|congruence]).
    rewrite Ek. cbn [negb]. unfold Series.astype.
    assert (Ed : dtype_eqb float64 (Series.dtype s) = false).
    { destruct (Series.dtype s) as [w|w|]; [reflexivity|reflexivity|].
      exfalso. apply Hk. reflexivity. }
    rewrite Ed. reflexivity. }
  split; [exact E|].
  unfold Series.to_gpu_array. rewrite E. reflexivity.
Qed.

Lemma nth_error_indexed_from {A : Type} (l : list A) (k i : nat) (x : A) :
  nth_error l i = Some x ->
  nth_error (combine (map Z.of_nat (seq k (length l))) l) i
  = Some (Z.of_nat (k + i), x).
Proof.
  revert k i. induction l as [|y l IH]; intros k [|i] H; try discriminate H.
  - cbn in *. rewrite Nat.add_0_r. congruence.
  - cbn in *. rewrite (IH (S k) i H). do 2 f_equal. lia.
Qed.

(** What the backend's fill does at one row. *)
Lemma fillna_nth (data mask : ndarray) (value : scalar) (i : nat) (x : scalar) :
  nth_error (nd_data data) i = Some x ->
  nth_error (nd_data (cudautils.fillna data mask value)) i
  = Some (if cudautils.valid_at mask (Z.of_nat i) then x
          else cast_scalar (nd_dtype data) value).
Proof.
  intros H. unfold cudautils.fillna, cudautils.indexed. cbn [nd_data].
  rewrite nth_error_map, (nth_error_indexed_from _ 0 i x H). reflexivity.
Qed.

(** On a masked column of a floating dtype the column itself is filled:
    the rows under a null are NaN.  This is the branch that does what the
    docstring of [to_array] says. *)
Lemma to_dense_buffer_pandas_float (s : Series.t) (m : Buffer.t) :
  Series._mask s = Some m ->
  kind (Series.dtype s) = kind_f ->
  Series.to_dense_buffer s Series.FillPandas
  = Ok (Series.DSeries
          (Series.from_array
             (cudautils.fillna (Buffer.to_gpu_array (Series._data s))
                               (Buffer.to_gpu_array m) nan))).
Proof.
  intros Hm Hk. unfold Series.to_dense_buffer, Series.has_null_mask.
  rewrite Hm, Hk. cbn [dkind_eqb negb]. unfold Series.fillna. rewrite Hm.
  reflexivity.
Qed.

Lemma fillna_null_is_nan (data mask : ndarray) (i : nat) (x : scalar) :
  nd_dtype data = float64 ->
  nth_error (nd_data data) i = Some x ->
  cudautils.valid_at mask (Z.of_nat i) = false ->
  nth_error (nd_data (cudautils.fillna data mask nan)) i = Some nan.
Proof.
  intros Hd Hx Hv. rewrite (fillna_nth _ _ _ _ _ Hx), Hv, Hd. reflexivity.
Qed.

(** C1 on the [int64] column [10, 20, 30] whose row 1 is null: the claim
    asks for NaN at row 1 of the ['pandas'] dense array; the code gives
    the stored value 20, cast to [float64]. *)
Theorem to_dense_buffer_pandas_int_null :
  exists s,
    Series.from_masked_array (Series.AArray (ints int64 [10; 20; 30]))
                             (Series.MArray (ints uint8 [5])) None = Ok s /\
    Series_wf s /\
    kind (Series.dtype s) = kind_i /\
    Series.null_count s = 1 /\
    Series.getitem_int s 1 = Ok None /\
    Series.to_array s Series.FillPandas
    = Ok (mk_ndarray float64
            [F (float_of_Z 10); F (float_of_Z 20); F (float_of_Z 30)]) /\
    isnan (F (float_of_Z 20)) = false.
Proof.
  eexists. split; [reflexivity|].
  split; [vm_compute; intuition discriminate|].
  vm_compute. repeat split.
Qed.

(** The same rows in a [float64] column: row 1 is NaN. *)
Example to_dense_buffer_pandas_float_null :
  exists s,
    Series.from_masked_array
      (Series.AArray (mk_ndarray float64
         [F (float_of_Z 10); F (float_of_Z 20); F (float_of_Z 30)]))
      (Series.MArray (ints uint8 [5])) None = Ok s /\
    Series.to_array s Series.FillPandas
    = Ok (mk_ndarray float64 [F (float_of_Z 10); nan; F (float_of_Z 30)]).
Proof. eexists. split; [reflexivity|]. vm_compute. reflexivity. Qed.

(** *** The cast of an integer to [float64] is never NaN *)

Section Rounding.
Variables prec emax : Z.

Lemma shr_1_nonneg (mrs : shr_record) :
  0 <= shr_m mrs -> 0 <= shr_m (shr_1 mrs).
Proof.
  destruct mrs as [m r s]. cbn [shr_m].
  destruct m as [|[p|p|]|[p|p|]]; cbn; lia.
Qed.

Lemma iter_pos_shr_1_nonneg (p : positive) (mrs : shr_record) :
  0 <= shr_m mrs -> 0 <= shr_m (iter_pos shr_1 p mrs).
Proof.
  revert mrs. induction p as [p IH|p IH|]; intros mrs H; cbn.
  - apply IH, IH, shr_1_nonneg, H.
  - apply IH, IH, H.
  - apply shr_1_nonneg, H.
Qed.

Lemma shr_nonneg (mrs : shr_record) (e n : Z) :
  0 <= shr_m mrs -> 0 <= shr_m (fst (shr mrs e n)).
Proof.
  intros H. destruct n; cbn; try assumption.
  apply iter_pos_shr_1_nonneg, H.
Qed.

Lemma shr_record_of_loc_m (m : Z) (l : location) :
  shr_m (shr_record_of_loc m l) = m.
Proof. destruct l as [|[]]; reflexivity. Qed.

Lemma shr_fexp_nonneg (m e : Z) (l : location) :
  0 <= m -> 0 <= shr_m (fst (shr_fexp prec emax m e l)).
Proof.
  intros H. unfold shr_fexp. apply shr_nonneg.
  rewrite shr_record_of_loc_m. exact H.
Qed.

Lemma round_nearest_even_nonneg (m : Z) (l : location) :
  0 <= m -> 0 <= round_nearest_even m l.
Proof.
  intros H. destruct l as [|[]]; cbn; try lia.
  destruct (Z.even m); lia.
Qed.

Lemma binary_round_aux_not_nan (sx : bool) (mx ex : Z) (lx : location) :
  0 <= mx -> binary_round_aux prec emax sx mx ex lx <> S754_nan.
Proof.
  intros H. unfold binary_round_aux.
  pose proof (shr_fexp_nonneg mx ex lx H) as H1.
  destruct (shr_fexp prec emax mx ex lx) as [mrs' e']. cbn [fst] in H1.
  pose proof (shr_fexp_nonneg _ e' loc_Exact
                (round_nearest_even_nonneg _ (loc_of_shr_record mrs') H1)) as H2.
  destruct (shr_fexp prec emax _ e' loc_Exact) as [mrs'' e'']. cbn [fst] in H2.
  destruct (shr_m mrs'') as [|m|m]; [discriminate| |lia].
  destruct (e'' <=? emax - prec); discriminate.
Qed.

Lemma binary_normalize_not_nan (m e : Z) (szero : bool) :
  binary_normalize prec emax m e szero <> S754_nan.
Proof.
  destruct m as [|p|p]; cbn; [discriminate| |];
    unfold binary_round;
    destruct (shl_align _ _ _) as [mz ez];
    apply binary_round_aux_not_nan; lia.
Qed.
End Rounding.

Lemma float_of_Z_not_nan (z : Z) : isnan (F (float_of_Z z)) = false.
Proof.
  pose proof (binary_normalize_not_nan 53 1024 z 0 false) as H.
  unfold float_of_Z. cbn.
  destruct (binary_normalize 53 1024 z 0 false); congruence.
Qed.

Lemma Forall_firstn {A : Type} (P : A -> Prop) (n : nat) (l : list A) :
  Forall P l -> Forall P (firstn n l).
Proof.
  revert l. induction n as [|n IH]; intros l H; [constructor|].
  destruct H; cbn; constructor; auto.
Qed.

Lemma Forall_skipn {A : Type} (P : A -> Prop) (n : nat) (l : list A) :
  Forall P l -> Forall P (skipn n l).
Proof.
  revert l. induction n as [|n IH]; intros l H; [exact H|].
  destruct H; cbn; [constructor|auto].
Qed.

Lemma slice1_Forall {A : Type} (P : A -> Prop) (l : list A) (a b : option Z) :
  Forall P l -> Forall P (slice1 l a b).
Proof.
  intros H. unfold slice1. apply Forall_firstn, Forall_skipn, H.
Qed.

(** On every masked column of integers, no row of the ['pandas'] dense
    array is NaN: the rows under a null hold the cast of what is stored
    there. *)
Lemma pandas_nonfloat_never_nan (s : Series.t) :
  Series.has_null_mask s = true ->
  kind (Series.dtype s) <> kind_f ->
  Forall is_int (nd_data (Buffer.mem (Series.data s))) ->
  exists arr,
    Series.to_array s Series.FillPandas = Ok arr /\
    Forall (fun v => isnan v = false) (nd_data arr).
Proof.
  intros Hm Hk Hint.
  destruct (to_dense_buffer_pandas_nonfloat s Hm Hk) as [_ E].
  unfold Series.to_array. rewrite E. eexists. split; [reflexivity|].
  unfold Buffer.to_gpu_array, nd_slice1. cbn [nd_data].
  apply slice1_Forall. unfold Buffer.astype.
  destruct (dtype_eqb (Buffer.dtype (Series.data s)) float64) eqn:Ed.
  - eapply Forall_impl; [|exact Hint]. intros [z|x] Hv; [reflexivity|destruct Hv].
  - unfold Buffer.__init__, cudautils.to_device, cudautils.astype.
    cbn [Buffer.mem]. unfold Buffer.dtype in Ed. rewrite Ed. cbn [nd_data].
    apply Forall_map. eapply Forall_impl; [|exact Hint].
    intros [z|x] Hv; [|destruct Hv]. apply float_of_Z_not_nan.
Qed.

(** *** [append] *)

Lemma nd_size_device_array (n : Z) (d : np_dtype) :
  0 <= n -> nd_size (device_array n d) = n.
Proof.
  intros H. unfold nd_size, device_array. cbn. rewrite repeat_length. lia.
Qed.

Lemma from_empty_device_array (n : Z) (d : np_dtype) :
  0 <= n ->
  let b := Buffer.from_empty (device_array n d) in
  Buffer_wf b /\ Buffer.size b = 0 /\ Buffer.capacity b = n /\
  Buffer.dtype b = d /\ nd_data (Buffer.to_gpu_array b) = [].
Proof.
  intros H b.
  assert (Hwf : Buffer_wf b).
  { unfold Buffer_wf, b, Buffer.from_empty, Buffer.__init__, cudautils.to_device.
    cbn [Buffer.size Buffer.capacity Buffer.mem].
    rewrite nd_size_device_array by assumption. lia. }
  repeat split; try apply Hwf.
  - unfold b, Buffer.from_empty, Buffer.__init__. cbn [Buffer.capacity].
    apply nd_size_device_array, H.
  - rewrite (Buffer_dense_data b Hwf). reflexivity.
Qed.

(** C4, as the code has it.  For every pair of Series [a] and [b] within
    their invariants, [a.append(b)] returns a new Series of length
    [len(a) + len(b)] whose data buffer is [a]'s data followed by [b]'s
    data cast to the dtype of [a]'s data buffer, which is [b]'s data as it
    is when the two dtypes agree; the result has no null mask and null
    count 0, whether [a] or [b] has a mask or not. *)
Theorem append_spec (a b : Series.t) :
  Series_wf a -> Series_wf b ->
  exists r,
    Series.append a (Series.ASeries b) = Ok r /\
    Series.__len__ r = Series.__len__ a + Series.__len__ b /\
    nd_data (Buffer.to_gpu_array (Series.data r))
    = nd_data (Buffer.to_gpu_array (Series.data a))
        ++ nd_data (cudautils.astype (Buffer.to_gpu_array (Series.data b))
                                     (Buffer.dtype (Series.data a))) /\
    (Buffer.dtype (Series.data b) = Buffer.dtype (Series.data a) ->
     nd_data (Buffer.to_gpu_array (Series.data r))
     = nd_data (Buffer.to_gpu_array (Series.data a))
         ++ nd_data (Buffer.to_gpu_array (Series.data b))) /\
    Series.has_null_mask r = false /\
    Series.null_count r = 0 /\
    Series_wf r.
Proof.
  intros (Hwa & Hsa & _) (Hwb & Hsb & _).
  unfold Series.append, Series.from_any, Series.__len__, Series.data.
  pose proof Hwa as [Hra _]. pose proof Hwb as [Hrb _].
  destruct (from_empty_device_array
              (Series._size a + Series._size b)
              (Buffer.dtype (Series._data a)))
    as (Hw0 & Hs0 & Hc0 & Hd0 & Hv0); [lia|].
  set (b0 := Buffer.from_empty _) in *.
  cbn [Series.extend_each].
  destruct (Buffer_extend_ok b0 (Buffer.to_gpu_array (Series._data a)) Hw0)
    as (b1 & E1 & Hw1 & Hs1 & Hc1 & Hd1 & _ & Hv1).
  { rewrite (Buffer_dense_size _ Hwa). unfold Buffer.avail_space. lia. }
  rewrite E1.
  destruct (Buffer_extend_ok b1 (Buffer.to_gpu_array (Series._data b)) Hw1)
    as (b2 & E2 & Hw2 & Hs2 & Hc2 & Hd2 & _ & Hv2).
  { rewrite (Buffer_dense_size _ Hwb). unfold Buffer.avail_space.
    rewrite Hs1, (Buffer_dense_size _ Hwa). lia. }
  rewrite E2.
  rewrite (Buffer_dense_size _ Hwa) in Hs1.
  rewrite (Buffer_dense_size _ Hwb) in Hs2.
  rewrite Hv0, Hd0, astype_same in Hv1 by apply Buffer_dense_dtype.
  rewrite Hd1, Hd0, Hv1 in Hv2.
  exists (Series.from_buffer b2).
  split; [reflexivity|]. split; [cbn; lia|]. split; [exact Hv2|].
  split; [|split; [reflexivity|split; [reflexivity|]]].
  - intros Hd. change (Series._data (Series.from_buffer b2)) with b2.
    rewrite Hv2, astype_same; [reflexivity|].
    rewrite Buffer_dense_dtype. exact Hd.
  - apply Series_from_buffer_wf, Hw2.
Qed.

Lemma append_spec_witness :
  exists r,
    Series.append (Series.from_array (ints int64 [1; 2]))
                  (Series.ASeries (Series.from_array (ints int64 [3]))) = Ok r /\
    nd_data (Buffer.to_gpu_array (Series.data r)) = [I 1; I 2; I 3].
Proof.
  destruct (append_spec (Series.from_array (ints int64 [1; 2]))
                        (Series.from_array (ints int64 [3])))
    as (r & E & _ & _ & Hv & _); try apply Series_from_array_wf.
  exists r. split; [exact E|]. apply Hv. reflexivity.
Defined.

(** C4, as it is written, fails when the dtypes differ: appending the
    [float64] column [1.5] to the [int64] column [1] stores 1, the cast of
    1.5 to [int64]. *)
Lemma append_concat_stated_fails : ~ append_concat_stated.
Proof.
  intros H.
  pose (a := Series.from_array (ints int64 [1])).
  pose (b := Series.from_array (mk_ndarray float64 [F (S754_finite false 3 (-1))])).
  assert (Ha : Series_wf a) by (vm_compute; intuition discriminate).
  assert (Hb : Series_wf b) by (vm_compute; intuition discriminate).
  assert (Hr : Series.append a (Series.ASeries b)
               = Ok (Series.from_array (ints int64 [1; 1]))) by reflexivity.
  destruct (H a b _ Ha Hb Hr) as (_ & E & _).
  vm_compute in E. discriminate E.
Qed.

(** *** Slices of a masked column *)

Lemma calc_chunk_size_aligned (a : Z) :
  a mod 8 = 0 -> utils.calc_chunk_size a utils.mask_bitsize = a / 8.
Proof.
  intros H. unfold utils.calc_chunk_size, utils.mask_bitsize.
  Z.div_mod_to_equations. lia.
Qed.

(** Reading element [i] of the buffer made from [mem[a:b]] is reading
    element [a + i] of a buffer over [mem]. *)
Lemma Buffer_getitem_int_view (b : Buffer.t) (lo hi i : Z) :
  Buffer_wf b ->
  0 <= lo <= hi -> hi <= Buffer.size b -> 0 <= i < hi - lo ->
  Buffer.getitem_int
    (Buffer.__init__ (nd_slice1 (Buffer.mem b) (Some lo) (Some hi)) None None) i
  = Buffer.getitem_int b (lo + i).
Proof.
  intros Hwf Hlo Hhi Hi. pose proof Hwf as [Hs Hc]. unfold nd_size in Hc.
  rewrite (Buffer_getitem_int_inside b) by (assumption || lia).
  rewrite Buffer_getitem_int_inside.
  - unfold Buffer.__init__, cudautils.to_device, nd_slice1.
    cbn [Buffer.mem nd_data]. apply getitem_slice1; lia.
  - apply Buffer_init_wf.
  - unfold Buffer.__init__, nd_slice1, nd_size. cbn [Buffer.size nd_data].
    rewrite length_slice1_range by lia. lia.
Qed.

(** A start that is left out stands for 0. *)
Lemma slice1_resolved {A : Type} (l : list A) (oa : option Z) (b : Z) :
  slice1 l oa (Some b)
  = slice1 l (Some match oa with Some a => a | None => 0 end) (Some b).
Proof.
  destruct oa as [a|]; [reflexivity|].
  unfold slice1, adjust_bound. change (0 <? 0) with false. cbv iota.
  rewrite (Z.min_l 0) by lia. reflexivity.
Qed.

(** C5.  For every Series [s] within its invariant that has nulls, and
    every slice [[start:stop]] of step 1 with [start] a multiple of 8 (a
    start that is left out is 0) and [0 <= start <= stop <= len(s)], the
    slice is a Series of length [stop - start], and reading its element
    [i] gives what reading the element [start + i] of [s] gives: the same
    value, and [None] at the same rows. *)
Theorem masked_slice_reads (s : Series.t) (sl : slice) (stop_ : Z) :
  let start_ := match start sl with Some a => a | None => 0 end in
  Series_wf s ->
  Series.null_count s > 0 ->
  stop sl = Some stop_ ->
  start_ mod 8 = 0 ->
  0 <= start_ <= stop_ ->
  stop_ <= Series.__len__ s ->
  step sl = None \/ step sl = Some 1 ->
  exists s',
    Series.getitem_slice s sl = Ok s' /\
    Series.__len__ s' = stop_ - start_ /\
    forall i, 0 <= i < stop_ - start_ ->
      Series.getitem_int s' i = Series.getitem_int s (start_ + i).
Proof.
  intros start_ (Hwd & Hsz & Hmask) Hnull Estop Hal Hr Hstop Hstep.
  unfold Series.null_count, Series.__len__ in *.
  destruct (Series._mask s) as [m|] eqn:Em; [|lia].
  destruct Hmask as [Hwm Hms].
  pose proof Hwd as [Hd1 Hd2]. pose proof Hwm as [Hm1 Hm2].
  unfold nd_size in Hd2, Hm2.
  unfold Series.getitem_slice, Series.null_count, Series.__len__.
  destruct (Z.gtb_spec (Series._null_count s) 0); [|lia].
  assert (Estep : match step sl with
                  | Some st => if negb (st =? 1)
                               then Raise NotImplementedError else Ok tt
                  | None => Ok tt
                  end = Ok tt) by (destruct Hstep as [-> | ->]; reflexivity).
  rewrite Estep. cbn [bind].
  assert (Edata : nd_getslice (Buffer.mem (Series._data s)) sl
                  = Ok (nd_slice1 (Buffer.mem (Series._data s))
                          (Some start_) (Some stop_))).
  { unfold nd_getslice, getslice, nd_slice1, start_.
    rewrite <- (slice1_resolved _ (start sl) stop_), <- Estop.
    destruct Hstep as [-> | ->]; reflexivity. }
  rewrite Edata. cbn [bind]. rewrite Em.
  assert (Estart : Series.or_default (start sl) 0 = start_).
  { unfold Series.or_default, start_.
    destruct (start sl) as [a|]; [|reflexivity].
    destruct (Z.eqb_spec a 0); lia. }
  rewrite Estart, (calc_chunk_size_aligned _ Hal).
  set (stop' := Series.or_default (stop sl) (Series._size s)).
  assert (Hstop' : stop_ <= stop' <= Series._size s /\ (0 < stop_ -> stop' = stop_)).
  { unfold stop', Series.or_default. rewrite Estop.
    destruct (Z.eqb_spec stop_ 0); lia. }
  set (hi := utils.calc_chunk_size stop' utils.mask_bitsize).
  assert (Hhi : start_ / 8 <= hi <= Buffer.size m /\
                (0 < stop_ -> hi = (stop_ + 7) / 8)).
  { unfold hi in *. rewrite Hms. destruct Hstop' as [Hs1 Hs2].
    unfold utils.calc_chunk_size, utils.mask_bitsize. split.
    - Z.div_mod_to_equations. lia.
    - intros Hp. rewrite (Hs2 Hp). f_equal. lia. }
  unfold nd_getslice at 1, getslice. cbn [step start stop bind].
  fold (nd_slice1 (Buffer.mem m) (Some (start_ / 8)) (Some hi)).
  eexists. split; [reflexivity|].
  unfold Series._copy_construct, Series.__init__.
  cbn [Series.kw_size Series.kw_dtype Series.kw_buffer Series.kw_mask
       Series.kw_null_count Series.kw_impl Series._size Series._data
       Series._mask].
  split.
  { unfold nd_slice1, nd_size. cbn [nd_data]. apply length_slice1_range; lia. }
  intros i Hi. unfold Series.getitem_int.
  cbn [Series._data Series._mask]. rewrite Em.
  rewrite (Buffer_getitem_int_view _ start_ stop_ i Hwd) by lia.
  destruct (Buffer.getitem_int (Series._data s) (start_ + i)) as [val|e];
    [|reflexivity].
  cbn [bind]. f_equal. unfold cudautils.mask_get.
  destruct Hhi as [Hh1 Hh2]. specialize (Hh2 ltac:(lia)).
  assert (Eq8 : (start_ + i) / 8 = start_ / 8 + i / 8)
    by (Z.div_mod_to_equations; lia).
  assert (Em8 : (start_ + i) mod 8 = i mod 8)
    by (Z.div_mod_to_equations; lia).
  rewrite Eq8, Em8.
  rewrite (Buffer_getitem_int_view _ (start_ / 8) hi (i / 8) Hwm).
  - reflexivity.
  - Z.div_mod_to_equations. lia.
  - lia.
  - rewrite Hh2. Z.div_mod_to_equations. lia.
Qed.

Lemma masked_slice_reads_witness :
  exists s s',
    Series.from_masked_array
      (Series.AArray (ints int64 [0; 1; 2; 3; 4; 5; 6; 7; 8; 9]))
      (Series.MArray (ints uint8 [255; 1])) None = Ok s /\
    Series.getitem_slice s (mk_slice (Some 8) (Some 10) None) = Ok s' /\
    Series.getitem_int s' 0 = Ok (Some (I 8)) /\
    Series.getitem_int s' 1 = Ok None.
Proof.
  pose (s := Series.mk 10 int64
               (Buffer.__init__ (ints int64 [0; 1; 2; 3; 4; 5; 6; 7; 8; 9]) None None)
               (Some (Buffer.__init__ (ints uint8 [255; 1]) None None)) 1
               (Series.NumericalSeriesImpl int64)).
  destruct (masked_slice_reads s (mk_slice (Some 8) (Some 10) None) 10)
    as (s' & E' & _ & H).
  - vm_compute. intuition discriminate.
  - reflexivity.
  - reflexivity.
  - reflexivity.
  - cbn. lia.
  - vm_compute. discriminate.
  - left. reflexivity.
  - exists s, s'. split; [reflexivity|]. split; [exact E'|].
    cbn [start] in H. rewrite (H 0), (H 1) by lia. split; reflexivity.
Defined.

(** A start that is not a multiple of 8 is outside the claim: the mask
    of the slice [[1:10]] begins at byte 1, and row 1 of the slice reads
    as null, while row 2 of the Series is valid. *)
Example unaligned_slice_differs :
  exists s s',
    Series.from_masked_array
      (Series.AArray (ints int64 [0; 1; 2; 3; 4; 5; 6; 7; 8; 9]))
      (Series.MArray (ints uint8 [255; 1])) None = Ok s /\
    Series.getitem_slice s (mk_slice (Some 1) (Some 10) None) = Ok s' /\
    Series.getitem_int s' 1 = Ok None /\
    Series.getitem_int s 2 = Ok (Some (I 2)).
Proof. do 2 eexists. repeat split. Qed.

(** ** [DataFrame] *)

Lemma lookup_dict_set_same (name : string) (v : Series.t)
    (cols : list (string * Series.t)) :
  DataFrame.lookup name (DataFrame.dict_set name v cols) = Some v.
Proof.
  induction cols as [|[k w] cols IH]; cbn.
  - rewrite String.eqb_refl. reflexivity.
  - destruct (String.eqb k name) eqn:E; cbn; rewrite E; [reflexivity|exact IH].
Qed.

Lemma lookup_dict_set_other (name k : string) (v : Series.t)
    (cols : list (string * Series.t)) :
  k <> name ->
  DataFrame.lookup k (DataFrame.dict_set name v cols) = DataFrame.lookup k cols.
Proof.
  intros Hk. induction cols as [|[k' w] cols IH]; cbn.
  - destruct (String.eqb_spec name k); [congruence|reflexivity].
  - destruct (String.eqb_spec k' name) as [->|Hn]; cbn.
    + destruct (String.eqb_spec name k); [congruence|reflexivity].
    + destruct (String.eqb k' k); [reflexivity|exact IH].
Qed.

Lemma keys_dict_set_present (name : string) (v : Series.t)
    (cols : list (string * Series.t)) :
  DataFrame.contains name cols = true ->
  map fst (DataFrame.dict_set name v cols) = map fst cols.
Proof.
  unfold DataFrame.contains.
  induction cols as [|[k w] cols IH]; cbn; [discriminate|].
  destruct (String.eqb k name); cbn; [reflexivity|].
  intros H. rewrite (IH H). reflexivity.
Qed.

(** The sentry of [add_column]: a new column whose length differs from
    the row count is refused, and the dataframe is unchanged. *)
Lemma add_column_size_sentry (df : DataFrame.t) (name : string)
    (data : Series.arbitrary) :
  DataFrame.contains name (DataFrame._cols df) = false ->
  DataFrame._cols df <> [] ->
  Series.__len__ (Series.from_any data) <> DataFrame._size df ->
  DataFrame.add_column df name data = (Raise ValueError, df).
Proof.
  intros Hn Hne Hlen. unfold DataFrame.add_column, DataFrame._sentry_column_size.
  rewrite Hn. destruct (DataFrame._cols df); [congruence|].
  destruct (Z.eqb_spec (DataFrame._size df) (Series.__len__ (Series.from_any data)));
    [congruence|reflexivity].
Qed.

Lemma dict_set_absent (name : string) (v : Series.t)
    (cols : list (string * Series.t)) :
  DataFrame.contains name cols = false ->
  DataFrame.dict_set name v cols = cols ++ [(name, v)].
Proof.
  unfold DataFrame.contains.
  induction cols as [|[k w] cols IH]; cbn; [reflexivity|].
  destruct (String.eqb k name); [discriminate|].
  intros H. rewrite (IH H). reflexivity.
Qed.

(** [add_column] keeps the invariant of the dataframe: this is what its
    sentry is for. *)
Lemma add_column_wf (df df' : DataFrame.t) (name : string)
    (data : Series.arbitrary) :
  DataFrame_wf df -> Series_wf (Series.from_any data) ->
  DataFrame.add_column df name data = (Ok tt, df') ->
  DataFrame_wf df'.
Proof.
  intros Hwf Hs. unfold DataFrame.add_column, DataFrame._sentry_column_size.
  destruct (DataFrame.contains name (DataFrame._cols df)) eqn:Hn; [discriminate|].
  cbv zeta. rewrite (dict_set_absent _ _ _ Hn).
  assert (Hnew : Forall
            (fun kc : string * Series.t =>
               Series_wf (snd kc) /\
               Series._size (snd kc) = Series.__len__ (Series.from_any data))
            [(name, Series.from_any data)]).
  { constructor; [|constructor]. split; [exact Hs|reflexivity]. }
  unfold DataFrame_wf in *.
  destruct (DataFrame._cols df) as [|kc cols] eqn:Ec.
  - intros [= <-]. exact Hnew.
  - destruct (Z.eqb_spec (DataFrame._size df)
                (Series.__len__ (Series.from_any data))) as [E|]; [|discriminate].
    cbn [negb]. intros [= <-]. cbn [DataFrame._cols DataFrame._size].
    change (Forall
              (fun kc : string * Series.t =>
                 Series_wf (snd kc) /\
                 Series._size (snd kc) = Series.__len__ (Series.from_any data))
              ((kc :: cols) ++ [(name, Series.from_any data)])).
    apply Forall_app. split; [|exact Hnew].
    eapply Forall_impl; [|exact Hwf]. intros x [Hx Hl]. split; [exact Hx|].
    rewrite Hl. exact E.
Qed.

(** C9.  For every dataframe and every name of one of its columns,
    [__setitem__] succeeds for a replacement of any length; it replaces
    the named column and no other, keeps the order of the columns, and
    keeps the row count as it was: the replacement is stored with its own
    length, and the sentry that [add_column] applies to a new name is not
    applied. *)
Theorem setitem_existing_column (df : DataFrame.t) (name : string)
    (col : Series.t) :
  DataFrame.contains name (DataFrame._cols df) = true ->
  exists df',
    DataFrame.__setitem__ df name col = (Ok tt, df') /\
    DataFrame.__getitem__ df' name = Ok col /\
    (forall k, k <> name ->
       DataFrame.__getitem__ df' k = DataFrame.__getitem__ df k) /\
    DataFrame.columns df' = DataFrame.columns df /\
    DataFrame.__len__ df' = DataFrame.__len__ df /\
    (Series.__len__ col <> DataFrame.__len__ df ->
     forall other,
       DataFrame.contains other (DataFrame._cols df) = false ->
       DataFrame.__setitem__ df other col = (Raise ValueError, df)).
Proof.
  intros H. unfold DataFrame.__setitem__. rewrite H.
  eexists. split; [reflexivity|].
  unfold DataFrame.__getitem__, DataFrame.columns, DataFrame.__len__.
  cbn [DataFrame._cols DataFrame._size].
  repeat split.
  - rewrite lookup_dict_set_same. reflexivity.
  - intros k Hk. rewrite lookup_dict_set_other by assumption. reflexivity.
  - apply keys_dict_set_present, H.
  - intros Hlen other Ho. rewrite Ho.
    apply add_column_size_sentry; [assumption| |assumption].
    intros E. rewrite E in H. discriminate H.
Qed.

Lemma setitem_existing_column_witness :
  let a := Series.from_array (ints int64 [1; 2]) in
  let b := Series.from_array (ints int64 [3; 4]) in
  let c := Series.from_array (ints int64 [5; 6; 7]) in
  let df := DataFrame.mk 2 [("a"%string, a); ("b"%string, b)] in
  DataFrame.__setitem__ df "a"%string c
  = (Ok tt, DataFrame.mk 2 [("a"%string, c); ("b"%string, b)]) /\
  DataFrame.__setitem__ df "c"%string c = (Raise ValueError, df).
Proof.
  intros a b c df.
  destruct (setitem_existing_column df "a"%string c) as (df' & E & _ & _ & _ & _ & H);
    [reflexivity|].
  split; [reflexivity|].
  apply H; [vm_compute; discriminate|reflexivity].
Defined.

(** After such an assignment the columns no longer have one length: the
    dataframe of the lemma above is outside its invariant. *)
Example setitem_breaks_row_count :
  let a := Series.from_array (ints int64 [1; 2]) in
  let b := Series.from_array (ints int64 [3; 4]) in
  let c := Series.from_array (ints int64 [5; 6; 7]) in
  DataFrame_wf (DataFrame.mk 2 [("a"%string, a); ("b"%string, b)]) /\
  ~ DataFrame_wf (DataFrame.mk 2 [("a"%string, c); ("b"%string, b)]).
Proof.
  cbv zeta. split.
  - repeat constructor; vm_compute; intuition discriminate.
  - intros H. inversion H as [|x l [_ Hs] _]. vm_compute in Hs. discriminate Hs.
Qed.

(** *** [as_matrix] *)

Lemma lookup_In (name : string) (cols : list (string * Series.t)) (c : Series.t) :
  DataFrame.lookup name cols = Some c -> In (name, c) cols.
Proof.
  induction cols as [|[k w] cols IH]; cbn; [discriminate|].
  destruct (String.eqb_spec k name) as [->|Hk].
  - intros [= ->]. left. reflexivity.
  - intros H. right. exact (IH H).
Qed.













(** A column with a mask makes [as_matrix] fail, also when the column is
    not among the selected ones. *)
Example as_matrix_masked_column :
  let a := Series.from_array (ints int64 [1; 2]) in
  let b := Series.mk 2 int64 (Buffer.__init__ (ints int64 [3; 4]) None None)
             (Some (Buffer.__init__ (ints uint8 [3]) None None)) 0
             (Series.NumericalSeriesImpl int64) in
  let df := DataFrame.mk 2 [("a"%string, a); ("b"%string, b)] in
  DataFrame.as_matrix df (Some ["a"%string]) = Raise ValueError.
Proof. reflexivity. Qed.

(** * Further properties of the module *)

(** ** [Buffer] *)

(** Within its size, the memory of a buffer is its dense view. *)
Lemma Buffer_nth_dense (b : Buffer.t) (k : nat) :
  Buffer_wf b -> Z.of_nat k < Buffer.size b ->
  nth_error (nd_data (Buffer.to_gpu_array b)) k
  = nth_error (nd_data (Buffer.mem b)) k.
Proof.
  intros Hwf Hk. rewrite (Buffer_dense_data b Hwf), nth_error_firstn.
  destruct (Nat.ltb_spec k (Z.to_nat (Buffer.size b))); [reflexivity|lia].
Qed.


Lemma Buffer_getitem_int_dense (b : Buffer.t) (i : Z) :
  Buffer_wf b -> 0 <= i < Buffer.size b ->
  exists v, nth_error (nd_data (Buffer.to_gpu_array b)) (Z.to_nat i) = Some v /\
            Buffer.getitem_int b i = Ok v.
Proof.
  intros Hwf Hi.
  destruct (Buffer_getitem_int_nonneg b i Hwf Hi) as (w & Hw & E).
  exists w. split; [|exact E].
  rewrite (Buffer_nth_dense b _ Hwf) by lia. exact Hw.
Qed.

(** A negative index within the size counts from the end of the dense
    view. *)
Lemma Buffer_getitem_int_from_end (b : Buffer.t) (i : Z) :
  - Buffer.size b <= i < 0 ->
  Buffer.getitem_int b i = Buffer.getitem_int b (Buffer.size b + i).
Proof.
  intros Hi. unfold Buffer.getitem_int.
  destruct (Z.ltb_spec i 0); [|lia].
  destruct (Z.ltb_spec (Buffer.size b + i) 0); [lia|]. reflexivity.
Qed.



Lemma Buffer_getitem_int_as_dense (b : Buffer.t) (i : Z) :
  Buffer_wf b -> 0 <= i < Buffer.size b ->
  Buffer.getitem_int b i = getitem (nd_data (Buffer.to_gpu_array b)) i.
Proof.
  intros Hwf Hi.
  destruct (Buffer_getitem_int_dense b i Hwf Hi) as (v & Hn & ->).
  destruct (getitem_inside (nd_data (Buffer.to_gpu_array b)) i) as (w & Hw & ->).
  { pose proof (Buffer_dense_size b Hwf) as Hl. unfold nd_size in Hl. lia. }
  congruence.
Qed.

(** A stop that is left out stands for the length. *)
Lemma slice1_stop_default {A : Type} (l : list A) (oa : option Z) :
  slice1 l oa None = slice1 l oa (Some (Z.of_nat (length l))).
Proof.
  unfold slice1, adjust_bound.
  destruct (Z.ltb_spec (Z.of_nat (length l)) 0); [lia|].
  rewrite Z.min_id. reflexivity.
Qed.

Lemma Buffer_getitem_slice_ok (b : Buffer.t) (sl : slice) :
  let lo := match start sl with Some a => a | None => 0 end in
  let hi := match stop sl with Some a => a | None => Buffer.size b end in
  Buffer_wf b ->
  step sl = None \/ step sl = Some 1 ->
  0 <= lo <= hi -> hi <= Buffer.size b ->
  exists r,
    Buffer.getitem_slice b sl = Ok r /\
    Buffer_wf r /\
    Buffer.size r = hi - lo /\
    Buffer.capacity r = hi - lo /\
    nd_data (Buffer.to_gpu_array r)
    = firstn (Z.to_nat (hi - lo))
        (skipn (Z.to_nat lo) (nd_data (Buffer.to_gpu_array b))) /\
    (forall i, 0 <= i < hi - lo ->
       Buffer.getitem_int r i = Buffer.getitem_int b (lo + i)) /\
    (forall a, 0 < nd_size a -> Buffer.extend r a = (Raise MemoryError, r)).
Proof.
  intros lo hi Hwf Hstep Hlo Hhi.
  pose proof (Buffer_dense_size b Hwf) as Hlen. unfold nd_size in Hlen.
  remember (nd_data (Buffer.to_gpu_array b)) as dense eqn:Edense.
  assert (Es : slice1 dense (start sl) (stop sl) = slice1 dense (Some lo) (Some hi)).
  { unfold hi. destruct (stop sl) as [h|].
    - apply slice1_resolved.
    - rewrite slice1_stop_default, Hlen. apply slice1_resolved. }
  assert (E : Buffer.getitem_slice b sl
              = Ok (Buffer.__init__
                      (mk_ndarray (Buffer.dtype b) (slice1 dense (Some lo) (Some hi)))
                      None None)).
  { unfold Buffer.getitem_slice, nd_getslice, getslice. rewrite <- Edense, <- Es.
    destruct Hstep as [-> | ->]; reflexivity. }
  rewrite E. eexists. split; [reflexivity|].
  set (r := Buffer.__init__ _ None None).
  assert (Hr : Buffer_wf r) by apply Buffer_init_wf.
  assert (Hsz : Buffer.size r = hi - lo).
  { unfold r, Buffer.__init__, nd_size. cbn [Buffer.size nd_data].
    apply length_slice1_range; lia. }
  assert (Hv : nd_data (Buffer.to_gpu_array r) = slice1 dense (Some lo) (Some hi)).
  { unfold r. rewrite Buffer_init_dense. reflexivity. }
  split; [exact Hr|]. split; [exact Hsz|]. split; [exact Hsz|].
  split; [rewrite Hv; apply slice1_range; lia|]. split.
  - intros i Hi.
    rewrite (Buffer_getitem_int_as_dense r i Hr) by lia.
    rewrite (Buffer_getitem_int_as_dense b (lo + i) Hwf) by lia.
    rewrite Hv, <- Edense. apply getitem_slice1; lia.
  - intros a Ha. apply Buffer_extend_raise.
    unfold Buffer.avail_space. change (Buffer.capacity r) with (Buffer.size r). lia.
Qed.

(** [Buffer.__getitem__] on a slice [[lo:hi]] of step 1 within the size
    (a bound that is left out is 0 or the size): the result is a buffer of
    [hi - lo] elements, element [i] of which is element [lo + i] of the
    source; its capacity is its size, so that an [extend] of it by
    anything but an empty array raises [MemoryError]. *)
Theorem Buffer_getitem_slice_view (b : Buffer.t) (sl : slice) :
  let lo := match start sl with Some a => a | None => 0 end in
  let hi := match stop sl with Some a => a | None => Buffer.size b end in
  Buffer_wf b ->
  step sl = None \/ step sl = Some 1 ->
  0 <= lo <= hi -> hi <= Buffer.size b ->
  exists r,
    Buffer.getitem_slice b sl = Ok r /\
    Buffer_wf r /\
    Buffer.size r = hi - lo /\
    Buffer.capacity r = hi - lo /\
    nd_data (Buffer.to_gpu_array r)
    = firstn (Z.to_nat (hi - lo))
        (skipn (Z.to_nat lo) (nd_data (Buffer.to_gpu_array b))) /\
    (forall i, 0 <= i < hi - lo ->
       Buffer.getitem_int r i = Buffer.getitem_int b (lo + i)) /\
    (forall a, 0 < nd_size a -> Buffer.extend r a = (Raise MemoryError, r)).
Proof. exact (Buffer_getitem_slice_ok b sl). Qed.

Lemma Buffer_getitem_slice_view_witness :
  let b := Buffer.__init__ (ints int64 [10; 20; 30; 40]) None None in
  exists r,
    Buffer.getitem_slice b (mk_slice (Some 1) None None) = Ok r /\
    nd_data (Buffer.to_gpu_array r) = [I 20; I 30; I 40] /\
    Buffer.extend r (ints int64 [50]) = (Raise MemoryError, r).
Proof.
  intros b.
  destruct (Buffer_getitem_slice_view b (mk_slice (Some 1) None None))
    as (r & E & _ & _ & _ & Hv & _ & Hx).
  - apply Buffer_init_wf.
  - left. reflexivity.
  - vm_compute. intuition discriminate.
  - vm_compute. discriminate.
  - exists r. split; [exact E|]. split; [exact Hv|]. apply Hx. reflexivity.
Defined.

Lemma Buffer_astype_facts (b : Buffer.t) (d : np_dtype) :
  (Buffer.dtype b = d -> Buffer.astype b d = b) /\
  (Buffer.dtype b <> d ->
   Buffer_wf (Buffer.astype b d) /\
   Buffer.size (Buffer.astype b d) = nd_size (Buffer.mem b) /\
   Buffer.capacity (Buffer.astype b d) = nd_size (Buffer.mem b) /\
   nd_data (Buffer.to_gpu_array (Buffer.astype b d))
   = map (cast_scalar d) (nd_data (Buffer.mem b))) /\
  Buffer.dtype (Buffer.astype b d) = d /\
  Buffer.astype (Buffer.astype b d) d = Buffer.astype b d.
Proof.
  assert (Hd : Buffer.dtype (Buffer.astype b d) = d).
  { unfold Buffer.astype.
    destruct (dtype_eqb (Buffer.dtype b) d) eqn:E; [apply dtype_eqb_eq, E|].
    unfold Buffer.dtype, Buffer.__init__, cudautils.to_device, cudautils.astype in *.
    rewrite E. reflexivity. }
  split; [|split; [|split; [exact Hd|]]].
  - intros <-. unfold Buffer.astype. rewrite dtype_eqb_refl. reflexivity.
  - intros Hne. unfold Buffer.astype.
    destruct (dtype_eqb (Buffer.dtype b) d) eqn:E.
    { apply dtype_eqb_eq in E. contradiction. }
    split; [apply Buffer_init_wf|].
    rewrite Buffer_init_dense.
    unfold Buffer.__init__. cbn [Buffer.size Buffer.capacity].
    rewrite nd_size_astype. repeat split.
    unfold cudautils.astype. unfold Buffer.dtype in E. rewrite E. reflexivity.
  - unfold Buffer.astype at 1. rewrite Hd, dtype_eqb_refl. reflexivity.
Qed.

(** [Buffer.astype]: the buffer itself when the dtype is its own;
    otherwise a new buffer of the given dtype over the cast of the whole
    memory, the reserved elements behind the size included: its size and
    its capacity are the length of the memory.  Casting again to the same
    dtype changes nothing. *)
Theorem Buffer_astype_spec (b : Buffer.t) (d : np_dtype) :
  (Buffer.dtype b = d -> Buffer.astype b d = b) /\
  (Buffer.dtype b <> d ->
   Buffer_wf (Buffer.astype b d) /\
   Buffer.size (Buffer.astype b d) = nd_size (Buffer.mem b) /\
   Buffer.capacity (Buffer.astype b d) = nd_size (Buffer.mem b) /\
   nd_data (Buffer.to_gpu_array (Buffer.astype b d))
   = map (cast_scalar d) (nd_data (Buffer.mem b))) /\
  Buffer.dtype (Buffer.astype b d) = d /\
  Buffer.astype (Buffer.astype b d) d = Buffer.astype b d.
Proof. exact (Buffer_astype_facts b d). Qed.

Lemma Buffer_astype_spec_witness :
  let b := Buffer.mk (ints int64 [7; 0; 0]) 1 3 in
  Buffer.astype b int64 = b /\
  Buffer.size (Buffer.astype b float64) = 3.
Proof.
  intros b. destruct (Buffer_astype_spec b int64) as [H _].
  destruct (Buffer_astype_spec b float64) as (_ & H' & _).
  split; [apply H; reflexivity|].
  destruct H' as (_ & Hs & _); [discriminate|]. rewrite Hs. reflexivity.
Defined.

(** ** [Series] *)

(** The mask bit of the docstrings, [(byte >> k) & 1], is bit [k]. *)
Lemma mask_bit (z k : Z) :
  0 <= k -> (Z.land (Z.shiftr z k) 1 =? 0) = negb (Z.testbit z k).
Proof.
  intros Hk.
  assert (E : Z.land (Z.shiftr z k) 1 = Z.b2z (Z.testbit z k)).
  { change 1 with (Z.ones 1). rewrite Z.land_ones by lia.
    rewrite Z.pow_1_r, <- Z.bit0_mod, Z.shiftr_spec by lia. reflexivity. }
  rewrite E. destruct (Z.testbit z k); reflexivity.
Qed.

Lemma mask_get_dense (m : Buffer.t) (i : Z) :
  Buffer_wf m -> 0 <= i -> i / 8 < Buffer.size m ->
  exists byte,
    nth_error (nd_data (Buffer.to_gpu_array m)) (Z.to_nat (i / 8)) = Some byte /\
    cudautils.mask_get (Buffer.getitem_int m) i
    = match byte with
      | I z => Ok (if Z.testbit z (i mod 8) then 1 else 0)
      | F _ => Raise TypeError
      end /\
    cudautils.valid_at (Buffer.to_gpu_array m) i
    = match byte with
      | I z => Z.testbit z (i mod 8)
      | F _ => false
      end.
Proof.
  intros Hwf Hi Hb.
  assert (Hq : 0 <= i / 8 < Buffer.size m) by (split; [Z.div_mod_to_equations; lia|lia]).
  assert (Hr : 0 <= i mod 8) by (Z.div_mod_to_equations; lia).
  destruct (Buffer_getitem_int_dense m (i / 8) Hwf Hq) as (byte & Hn & E).
  exists byte. split; [exact Hn|].
  assert (Eb : forall z, Z.land (Z.shiftr z (i mod 8)) 1
                         = if Z.testbit z (i mod 8) then 1 else 0).
  { intros z. pose proof (mask_bit z (i mod 8) Hr) as Hm.
    change 1 with (Z.ones 1) at 1. rewrite Z.land_ones by lia.
    rewrite Z.pow_1_r, <- Z.bit0_mod, Z.shiftr_spec by lia.
    destruct (Z.testbit z (0 + i mod 8)) eqn:Et;
      replace (0 + i mod 8) with (i mod 8) in Et by lia; rewrite Et; reflexivity. }
  split.
  - unfold cudautils.mask_get. rewrite E. cbn [bind].
    destruct byte as [z|x]; [|reflexivity]. rewrite Eb. reflexivity.
  - unfold cudautils.valid_at, cudautils.mask_get, nd_getitem.
    rewrite <- (Buffer_getitem_int_as_dense m (i / 8) Hwf Hq), E. cbn [bind].
    destruct byte as [z|x]; [|reflexivity]. rewrite Eb.
    destruct (Z.testbit z (i mod 8)); reflexivity.
Qed.

Lemma mask_size_covers (n i : Z) :
  0 <= i < n -> i / 8 < utils.calc_chunk_size n utils.mask_bitsize.
Proof.
  intros Hi. unfold utils.calc_chunk_size, utils.mask_bitsize.
  Z.div_mod_to_equations. lia.
Qed.

Lemma Series_getitem_int_inside (s : Series.t) (i : Z) :
  Series_wf s -> 0 <= i < Series.__len__ s ->
  exists v,
    nth_error (dense_data s) (Z.to_nat i) = Some v /\
    match Series._mask s with
    | None => Series.getitem_int s i = Ok (Some v)
    | Some m =>
        exists byte,
          nth_error (nd_data (Buffer.to_gpu_array m)) (Z.to_nat (i / 8))
          = Some byte /\
          cudautils.valid_at (Buffer.to_gpu_array m) i
          = match byte with I z => Z.testbit z (i mod 8) | F _ => false end /\
          Series.getitem_int s i
          = match byte with
            | I z => Ok (if Z.testbit z (i mod 8) then Some v else None)
            | F _ => Raise TypeError
            end
    end.
Proof.
  intros (Hwd & Hsz & Hmask) Hi. unfold Series.__len__ in Hi.
  destruct (Buffer_getitem_int_dense (Series._data s) i Hwd) as (v & Hn & E); [lia|].
  exists v. split; [exact Hn|]. unfold Series.getitem_int. rewrite E. cbn [bind].
  destruct (Series._mask s) as [m|]; [|reflexivity].
  destruct Hmask as [Hwm Hms].
  destruct (mask_get_dense m i Hwm) as (byte & Hb & Eg & Ev); [lia| |].
  { rewrite Hms. apply mask_size_covers. lia. }
  exists byte. split; [exact Hb|]. split; [exact Ev|]. rewrite Eg.
  destruct byte as [z|x]; [|reflexivity]. cbn [bind].
  destruct (Z.testbit z (i mod 8)); reflexivity.
Qed.

(** [Series.__getitem__] on an integer, for a Series within its
    invariant.  An index at or above the length raises [IndexError].  An
    index [i] within the length reads the element [i] of the data; on a
    column with a mask it gives [None] when bit [i % 8] of the mask byte
    [i // 8] is 0.  A negative index [i] reads what the index [len + i]
    reads on a column without a mask, and on a masked column whose length
    is a multiple of 8. *)
Theorem Series_getitem_int_spec (s : Series.t) :
  Series_wf s ->
  (forall i, Series.__len__ s <= i -> Series.getitem_int s i = Raise IndexError) /\
  (forall i, 0 <= i < Series.__len__ s ->
     exists v,
       nth_error (dense_data s) (Z.to_nat i) = Some v /\
       match Series._mask s with
       | None => Series.getitem_int s i = Ok (Some v)
       | Some m =>
           exists byte,
             nth_error (nd_data (Buffer.to_gpu_array m)) (Z.to_nat (i / 8))
             = Some byte /\
             Series.getitem_int s i
             = match byte with
               | I z => Ok (if Z.testbit z (i mod 8) then Some v else None)
               | F _ => Raise TypeError
               end
       end) /\
  (Series._mask s = None \/ Series.__len__ s mod 8 = 0 ->
   forall i, - Series.__len__ s <= i < 0 ->
     Series.getitem_int s i = Series.getitem_int s (Series.__len__ s + i)).
Proof.
  intros Hwf. pose proof Hwf as (Hwd & Hsz & Hmask).
  unfold Series.__len__. split; [|split].
  - intros i Hi. unfold Series.getitem_int.
    rewrite Buffer_getitem_int_above; [reflexivity|apply Hwd|lia].
  - intros i Hi.
    destruct (Series_getitem_int_inside s i Hwf Hi) as (v & Hn & H).
    exists v. split; [exact Hn|].
    destruct (Series._mask s) as [m|]; [|exact H].
    destruct H as (byte & Hb & _ & E). exists byte. split; assumption.
  - intros Hal i Hi. unfold Series.getitem_int.
    rewrite (Buffer_getitem_int_from_end (Series._data s) i) by lia.
    rewrite <- Hsz.
    destruct (Buffer.getitem_int (Series._data s) (Series._size s + i)) as [val|e];
      [|reflexivity].
    cbn [bind]. destruct (Series._mask s) as [m|]; [|reflexivity].
    destruct Hal as [Hal|Hal]; [discriminate|].
    destruct Hmask as [Hwm Hms]. f_equal. unfold cudautils.mask_get.
    assert (Hm8 : Buffer.size m = Series._size s / 8).
    { rewrite Hms. unfold utils.calc_chunk_size, utils.mask_bitsize.
      Z.div_mod_to_equations. lia. }
    rewrite (Buffer_getitem_int_from_end m (i / 8))
      by (rewrite Hm8; Z.div_mod_to_equations; lia).
    replace (Buffer.size m + i / 8) with ((Series._size s + i) / 8)
      by (rewrite Hm8; Z.div_mod_to_equations; lia).
    replace ((Series._size s + i) mod 8) with (i mod 8)
      by (Z.div_mod_to_equations; lia).
    reflexivity.
Qed.

Lemma Series_getitem_int_spec_witness :
  let s := Series.mk 8 int64
             (Buffer.__init__ (ints int64 [0; 1; 2; 3; 4; 5; 6; 7]) None None)
             (Some (Buffer.__init__ (ints uint8 [127]) None None)) 1
             (Series.NumericalSeriesImpl int64) in
  Series.getitem_int s 8 = Raise IndexError /\
  Series.getitem_int s (-1) = Ok None /\
  Series.getitem_int s (-2) = Ok (Some (I 6)).
Proof.
  intros s.
  assert (Hwf : Series_wf s) by (vm_compute; intuition discriminate).
  destruct (Series_getitem_int_spec s Hwf) as (Habove & _ & Hneg).
  split; [apply Habove; vm_compute; discriminate|].
  rewrite (Hneg (or_intror eq_refl) (-1)), (Hneg (or_intror eq_refl) (-2))
    by (vm_compute; intuition discriminate).
  split; reflexivity.
Defined.

(** On a masked column whose length is not a multiple of 8 a negative
    index reads the validity of another row: here the last row is valid
    and index [-1] gives [None]. *)
Example masked_negative_index :
  let s := Series.mk 10 int64
             (Buffer.__init__ (ints int64 [0; 1; 2; 3; 4; 5; 6; 7; 8; 9]) None None)
             (Some (Buffer.__init__ (ints uint8 [255; 2]) None None)) 1
             (Series.NumericalSeriesImpl int64) in
  Series_wf s /\
  Series.getitem_int s 9 = Ok (Some (I 9)) /\
  Series.getitem_int s (-1) = Ok None.
Proof. vm_compute. intuition discriminate. Qed.

Lemma Buffer_astype_wf (b : Buffer.t) (d : np_dtype) :
  Buffer_wf b -> Buffer_wf (Buffer.astype b d).
Proof.
  intros H. unfold Buffer.astype.
  destruct (dtype_eqb (Buffer.dtype b) d); [exact H|apply Buffer_init_wf].
Qed.

(** [Series.astype]: the Series itself when the dtype is its own;
    otherwise a Series of the given dtype without a mask and with null
    count 0, whatever the mask of the source was, within the invariant
    when the source is.  When the data buffer of the source is full and of
    the dtype of the Series, the result has the length of the source and
    every row reads as the cast of the stored element, the rows that were
    null included. *)
Theorem Series_astype_spec (s : Series.t) (d : np_dtype) :
  Series_wf s ->
  (Series.dtype s = d -> Series.astype s d = s) /\
  (Series.dtype s <> d ->
   Series_wf (Series.astype s d) /\
   Series.has_null_mask (Series.astype s d) = false /\
   Series.null_count (Series.astype s d) = 0 /\
   Series.dtype (Series.astype s d) = d /\
   (Buffer.size (Series.data s) = nd_size (Buffer.mem (Series.data s)) ->
    Buffer.dtype (Series.data s) = Series.dtype s ->
    Series.__len__ (Series.astype s d) = Series.__len__ s /\
    forall i v, 0 <= i < Series.__len__ s ->
      nth_error (dense_data s) (Z.to_nat i) = Some v ->
      Series.getitem_int (Series.astype s d) i = Ok (Some (cast_scalar d v)))).
Proof.
  intros Hwf. pose proof Hwf as (Hwd & Hsz & _). split.
  - intros <-. unfold Series.astype. rewrite dtype_eqb_refl. reflexivity.
  - intros Hne. unfold Series.astype.
    destruct (dtype_eqb d (Series.dtype s)) eqn:E.
    { apply dtype_eqb_eq in E. congruence. }
    set (r := Series.from_buffer (Buffer.astype (Series.data s) d)).
    assert (Hr : Series_wf r)
      by (apply Series_from_buffer_wf, Buffer_astype_wf, Hwd).
    split; [exact Hr|]. split; [reflexivity|]. split; [reflexivity|]. split.
    { unfold r, Series.from_buffer, Series.dtype, Series.__init__. cbn [Series._dtype].
      apply Buffer_astype_facts. }
    intros Hfull Hdt.
    destruct (Buffer_astype_facts (Series.data s) d) as (_ & Hcast & _).
    destruct Hcast as (_ & Hs & _ & Hv); [congruence|].
    assert (Hlen : Series.__len__ r = Series.__len__ s).
    { unfold r, Series.from_buffer, Series.__len__, Series.__init__.
      cbn [Series._size]. unfold Series.data in *. lia. }
    split; [exact Hlen|]. intros i v Hi Hn.
    destruct (Series_getitem_int_inside r i Hr) as (w & Hw & H); [lia|].
    change (Series._mask r) with (@None Buffer.t) in H. rewrite H.
    unfold dense_data, r, Series.from_buffer, Series.__init__ in Hw.
    cbn [Series._data] in Hw. rewrite Hv, nth_error_map in Hw.
    unfold dense_data in Hn.
    rewrite (Buffer_nth_dense _ _ Hwd) in Hn by (unfold Series.__len__ in Hi; lia).
    unfold Series.data in Hw. rewrite Hn in Hw. cbn in Hw. congruence.
Qed.

Lemma Series_astype_spec_witness :
  exists s,
    Series.from_masked_array (Series.AArray (ints int64 [10; 20; 30]))
                             (Series.MArray (ints uint8 [5])) None = Ok s /\
    Series.getitem_int s 1 = Ok None /\
    Series.getitem_int (Series.astype s float64) 1 = Ok (Some (F (float_of_Z 20))) /\
    Series.astype s int64 = s.
Proof.
  eexists. split; [reflexivity|].
  match goal with |- Series.getitem_int ?s _ = _ /\ _ =>
    assert (Hwf : Series_wf s) by (vm_compute; intuition discriminate);
    destruct (Series_astype_spec s float64 Hwf) as [_ H];
    destruct (Series_astype_spec s int64 Hwf) as [H' _]
  end.
  split; [reflexivity|]. split; [|apply H'; reflexivity].
  destruct H as (_ & _ & _ & _ & H); [discriminate|].
  destruct H as [_ H]; [reflexivity|reflexivity|].
  apply (H 1 (I 20)); [vm_compute; intuition discriminate|reflexivity].
Defined.

Lemma firstn_skipn_firstn {A : Type} (l : list A) (lo n k : nat) :
  (lo + n <= k)%nat ->
  firstn n (skipn lo (firstn k l)) = firstn n (skipn lo l).
Proof.
  intros H. rewrite skipn_firstn_comm, firstn_firstn.
  rewrite Nat.min_l by lia. reflexivity.
Qed.

(** The slice [[lo:hi]] of step 1 of a Series within its invariant, on
    both branches of [__getitem__]. *)
Lemma Series_getitem_slice_ok (s : Series.t) (sl : slice) (hi : Z) :
  let lo := match start sl with Some a => a | None => 0 end in
  Series_wf s ->
  stop sl = Some hi ->
  step sl = None \/ step sl = Some 1 ->
  0 <= lo <= hi -> hi <= Series.__len__ s ->
  exists s',
    Series.getitem_slice s sl = Ok s' /\
    Series._size s' = hi - lo /\
    Buffer_wf (Series._data s') /\
    Buffer.size (Series._data s') = hi - lo /\
    Series._dtype s' = Series._dtype s /\
    dense_data s'
    = firstn (Z.to_nat (hi - lo)) (skipn (Z.to_nat lo) (dense_data s)) /\
    (Series.null_count s <= 0 ->
     Series._mask s' = None /\ Series._null_count s' = 0).
Proof.
  intros lo (Hwd & Hsz & Hmask) Estop Hstep Hlo Hhi.
  unfold Series.__len__ in Hhi.
  pose proof Hwd as [Hd1 Hd2]. unfold nd_size in Hd2.
  unfold Series.getitem_slice, Series.null_count.
  destruct (Z.gtb_spec (Series._null_count s) 0) as [Hnull|Hnull].
  - destruct (Series._mask s) as [m|] eqn:Em; [|lia].
    assert (Estep : match step sl with
                    | Some st => if negb (st =? 1)
                                 then Raise NotImplementedError else Ok tt
                    | None => Ok tt
                    end = Ok tt) by (destruct Hstep as [-> | ->]; reflexivity).
    rewrite Estep. cbn [bind].
    assert (Edata : nd_getslice (Buffer.mem (Series._data s)) sl
                    = Ok (nd_slice1 (Buffer.mem (Series._data s))
                            (Some lo) (Some hi))).
    { unfold nd_getslice, getslice, nd_slice1, lo.
      rewrite <- (slice1_resolved _ (start sl) hi), <- Estop.
      destruct Hstep as [-> | ->]; reflexivity. }
    rewrite Edata. cbn [bind].
    unfold nd_getslice at 1, getslice. cbn [step start stop bind].
    eexists. split; [reflexivity|].
    unfold Series._copy_construct, Series.__init__.
    cbn [Series.kw_size Series.kw_dtype Series.kw_buffer Series.kw_mask
         Series.kw_null_count Series.kw_impl Series._size Series._data
         Series._mask Series._dtype].
    assert (Hl : nd_size (nd_slice1 (Buffer.mem (Series._data s)) (Some lo) (Some hi))
                 = hi - lo).
    { unfold nd_slice1, nd_size. cbn [nd_data]. apply length_slice1_range; lia. }
    split; [exact Hl|]. split; [apply Buffer_init_wf|]. split; [exact Hl|].
    split; [reflexivity|]. split; [|lia].
    unfold dense_data. cbn [Series._data]. rewrite Buffer_init_dense.
    unfold nd_slice1. cbn [nd_data]. rewrite slice1_range by lia.
    rewrite (Buffer_dense_data _ Hwd). symmetry. apply firstn_skipn_firstn. lia.
  - destruct (Buffer_getitem_slice_ok (Series._data s) sl Hwd Hstep)
      as (r & E & Hr & Hrs & _ & Hv & _).
    { rewrite Estop. exact Hlo. }
    { rewrite Estop. lia. }
    rewrite Estop in Hrs, Hv. rewrite E. cbn [bind].
    eexists. split; [reflexivity|].
    unfold Series._copy_construct, Series.__init__.
    cbn [Series.kw_size Series.kw_dtype Series.kw_buffer Series.kw_mask
         Series.kw_null_count Series.kw_impl Series._size Series._data
         Series._mask Series._dtype Series._null_count].
    split; [exact Hrs|]. split; [exact Hr|]. split; [exact Hrs|].
    split; [reflexivity|]. split; [exact Hv|]. split; reflexivity.
Qed.

(** [Series.__getitem__] on a slice [[lo:hi]] of step 1 of a column
    without nulls, within its invariant and with [0 <= lo <= hi <= len]:
    the result is a Series of length [hi - lo], within the invariant,
    without a mask, and its row [i] reads the element [lo + i] of the
    data, whether [lo] is a multiple of 8 or not. *)
Theorem Series_getitem_slice_dense (s : Series.t) (sl : slice) (hi : Z) :
  let lo := match start sl with Some a => a | None => 0 end in
  Series_wf s ->
  Series.null_count s <= 0 ->
  stop sl = Some hi ->
  step sl = None \/ step sl = Some 1 ->
  0 <= lo <= hi -> hi <= Series.__len__ s ->
  exists s',
    Series.getitem_slice s sl = Ok s' /\
    Series_wf s' /\
    Series.has_null_mask s' = false /\
    Series.null_count s' = 0 /\
    Series.__len__ s' = hi - lo /\
    forall i, 0 <= i < hi - lo ->
      exists v,
        nth_error (dense_data s) (Z.to_nat (lo + i)) = Some v /\
        Series.getitem_int s' i = Ok (Some v).
Proof.
  intros lo Hwf Hnull Estop Hstep Hlo Hhi.
  destruct (Series_getitem_slice_ok s sl hi Hwf Estop Hstep Hlo Hhi)
    as (s' & E & Hsz & Hwd & Hds & _ & Hv & Hm).
  fold lo in Hsz, Hds, Hv.
  destruct (Hm Hnull) as [Hmask Hnc].
  assert (Hwf' : Series_wf s').
  { split; [exact Hwd|]. split; [lia|]. rewrite Hmask. exact Hnc. }
  exists s'. split; [exact E|]. split; [exact Hwf'|].
  unfold Series.has_null_mask, Series.null_count, Series.__len__.
  rewrite Hmask. repeat split; try assumption.
  intros i Hi.
  destruct (Series_getitem_int_inside s' i Hwf') as (v & Hn & H).
  { unfold Series.__len__. lia. }
  rewrite Hmask in H. exists v. split; [|exact H].
  rewrite Hv, nth_error_firstn, nth_error_skipn in Hn.
  destruct (Nat.ltb_spec (Z.to_nat i) (Z.to_nat (hi - lo))); [|lia].
  replace (Z.to_nat (lo + i)) with (Z.to_nat lo + Z.to_nat i)%nat by lia.
  exact Hn.
Qed.

Lemma Series_getitem_slice_dense_witness :
  let s := Series.from_array (ints int64 [10; 20; 30; 40]) in
  exists s',
    Series.getitem_slice s (mk_slice (Some 1) (Some 3) None) = Ok s' /\
    Series.getitem_int s' 0 = Ok (Some (I 20)) /\
    Series.getitem_int s' 2 = Raise IndexError.
Proof.
  intros s.
  destruct (Series_getitem_slice_dense s (mk_slice (Some 1) (Some 3) None) 3)
    as (s' & E & _ & _ & _ & _ & H).
  - apply Series_from_array_wf.
  - vm_compute. discriminate.
  - reflexivity.
  - left. reflexivity.
  - vm_compute. intuition discriminate.
  - vm_compute. discriminate.
  - exists s'. split; [exact E|].
    destruct (H 0) as (v & Hv & ->); [cbn; lia|].
    cbn in Hv. injection Hv as <-. split; [reflexivity|].
    vm_compute in E. injection E as <-. reflexivity.
Defined.

Lemma length_indexed {A : Type} (l : list A) :
  length (cudautils.indexed l) = length l.
Proof.
  unfold cudautils.indexed.
  rewrite length_combine, length_map, length_seq. lia.
Qed.

Lemma nd_size_fillna (data mask : ndarray) (value : scalar) :
  nd_size (cudautils.fillna data mask value) = nd_size data.
Proof.
  unfold cudautils.fillna, nd_size. cbn [nd_data].
  rewrite length_map, length_indexed. reflexivity.
Qed.

(** [Series.fillna]: the Series itself when it has no mask.  On a Series
    with a mask, within its invariant, the result is a Series of the same
    length without a mask and with null count 0; a row that the source
    reads as [None] reads as the fill value, cast to the dtype of the
    data, and every other row reads as it does in the source. *)
Theorem Series_fillna_spec (s : Series.t) (value : scalar) :
  Series_wf s ->
  (Series._mask s = None -> Series.fillna s value = s) /\
  (Series.has_null_mask s = true ->
   Series_wf (Series.fillna s value) /\
   Series.has_null_mask (Series.fillna s value) = false /\
   Series.null_count (Series.fillna s value) = 0 /\
   Series.__len__ (Series.fillna s value) = Series.__len__ s /\
   forall i, 0 <= i < Series.__len__ s ->
     Series.getitem_int s i <> Raise TypeError ->
     Series.getitem_int (Series.fillna s value) i
     = match Series.getitem_int s i with
       | Ok None => Ok (Some (cast_scalar (Buffer.dtype (Series.data s)) value))
       | r => r
       end).
Proof.
  intros Hwf. pose proof Hwf as (Hwd & Hsz & Hmask).
  unfold Series.fillna, Series.has_null_mask. split.
  - intros ->. reflexivity.
  - destruct (Series._mask s) as [m|] eqn:Em; [intros _|discriminate].
    set (out := cudautils.fillna (Buffer.to_gpu_array (Series._data s))
                                 (Buffer.to_gpu_array m) value).
    assert (Hr : Series_wf (Series.from_array out)) by apply Series_from_array_wf.
    assert (Hlen : Series.__len__ (Series.from_array out) = Series.__len__ s).
    { unfold Series.__len__, Series.from_array, Series.from_buffer, Series.__init__,
        Buffer.__init__. cbn [Series._size Buffer.size].
      unfold out. rewrite nd_size_fillna, (Buffer_dense_size _ Hwd). lia. }
    split; [exact Hr|]. split; [reflexivity|]. split; [reflexivity|].
    split; [exact Hlen|]. intros i Hi Hty.
    destruct (Series_getitem_int_inside s i Hwf Hi) as (v & Hn & H).
    rewrite Em in H. destruct H as (byte & Hb & Ev & E).
    destruct (Series_getitem_int_inside (Series.from_array out) i Hr)
      as (w & Hw & H); [lia|].
    change (Series._mask (Series.from_array out)) with (@None Buffer.t) in H.
    rewrite H, E.
    unfold dense_data, Series.from_array, Series.from_buffer, Series.__init__ in Hw.
    cbn [Series._data] in Hw. rewrite Buffer_init_dense in Hw.
    unfold out in Hw. rewrite (fillna_nth _ _ _ _ _ Hn), Z2Nat.id, Ev in Hw by lia.
    injection Hw as <-.
    destruct byte as [z|x].
    + destruct (Z.testbit z (i mod 8)); reflexivity.
    + rewrite E in Hty. contradiction.
Qed.

Lemma Series_fillna_spec_witness :
  let s := Series.mk 3 int64 (Buffer.__init__ (ints int64 [10; 20; 30]) None None)
             (Some (Buffer.__init__ (ints uint8 [5]) None None)) 1
             (Series.NumericalSeriesImpl int64) in
  Series.getitem_int (Series.fillna s (I 7)) 1 = Ok (Some (I 7)) /\
  Series.getitem_int (Series.fillna s (I 7)) 2 = Ok (Some (I 30)).
Proof.
  intros s.
  assert (Hwf : Series_wf s) by (vm_compute; intuition discriminate).
  destruct (Series_fillna_spec s (I 7) Hwf) as [_ H].
  destruct H as (_ & _ & _ & _ & H); [reflexivity|].
  split; [rewrite (H 1)|rewrite (H 2)];
    first [reflexivity | vm_compute; intuition discriminate].
Defined.

(** The compaction of the backend, row by row. *)
Lemma compact_indexed {A : Type} (f : Z -> bool) (g : nat -> list A)
    (l : list A) (k : nat) :
  (forall j x, nth_error l j = Some x ->
     g (k + j)%nat = if f (Z.of_nat (k + j)) then [x] else []) ->
  map snd (filter (fun '(i, _) => f i)
             (combine (map Z.of_nat (seq k (length l))) l))
  = flat_map g (seq k (length l)).
Proof.
  revert k. induction l as [|x l IH]; intros k H; [reflexivity|].
  cbn [length seq map combine filter flat_map].
  pose proof (H 0%nat x eq_refl) as H0. rewrite Nat.add_0_r in H0. rewrite H0.
  assert (IH' : map snd (filter (fun '(i, _) => f i)
                           (combine (map Z.of_nat (seq (S k) (length l))) l))
                = flat_map g (seq (S k) (length l))).
  { apply IH. intros j y Hy. replace (S k + j)%nat with (k + S j)%nat by lia.
    apply H. exact Hy. }
  destruct (f (Z.of_nat k)); cbn [map snd app]; rewrite IH'; reflexivity.
Qed.

Lemma map_snd_combine {A B : Type} (l : list B) (ix : list A) :
  (length l <= length ix)%nat -> map snd (combine ix l) = l.
Proof.
  revert ix. induction l as [|x l IH]; intros [|a ix] Hl; cbn in *;
    try reflexivity; try lia.
  rewrite IH by lia. reflexivity.
Qed.

Lemma map_snd_indexed {A : Type} (l : list A) :
  map snd (cudautils.indexed l) = l.
Proof.
  unfold cudautils.indexed. apply map_snd_combine.
  rewrite length_map, length_seq. lia.
Qed.

Lemma filter_all_indexed {A : Type} (l : list (Z * A)) :
  filter (fun '(_, _) => true) l = l.
Proof.
  induction l as [|[a b] l IH]; cbn; [reflexivity|]. rewrite IH. reflexivity.
Qed.

(** [Series.to_array()], with the default [fillna=None], on a Series
    within its invariant: it never raises, and the array holds the values
    of the rows that [__getitem__] does not read as null, in their order;
    it is never longer than the Series. *)
Theorem Series_to_array_skips_nulls (s : Series.t) :
  Series_wf s ->
  exists arr,
    Series.to_array s Series.FillNone = Ok arr /\
    nd_data arr
    = flat_map (fun i => match Series.getitem_int s (Z.of_nat i) with
                         | Ok (Some v) => [v]
                         | _ => []
                         end)
               (seq 0 (Z.to_nat (Series.__len__ s))) /\
    nd_size arr <= Series.__len__ s.
Proof.
  intros Hwf. pose proof Hwf as (Hwd & Hsz & Hmask).
  pose proof (Buffer_dense_size _ Hwd) as Hlen. unfold nd_size in Hlen.
  assert (Hn : Z.to_nat (Series.__len__ s) = length (dense_data s)).
  { unfold Series.__len__, dense_data. lia. }
  unfold Series.to_array. rewrite to_gpu_array_none.
  unfold Series.dense_gpu_array, Series.has_null_mask, Series._copy_to_dense_buffer.
  assert (Hall : forall (f : Z -> bool),
            (forall i, 0 <= i < Series.__len__ s ->
               exists v, nth_error (dense_data s) (Z.to_nat i) = Some v /\
                 match Series.getitem_int s i with
                 | Ok (Some w) => [w]
                 | _ => []
                 end = if f i then [v] else []) ->
            map snd (filter (fun '(i, _) => f i) (cudautils.indexed (dense_data s)))
            = flat_map (fun i => match Series.getitem_int s (Z.of_nat i) with
                                 | Ok (Some v) => [v]
                                 | _ => []
                                 end)
                       (seq 0 (Z.to_nat (Series.__len__ s)))).
  { intros f Hf. rewrite Hn. unfold cudautils.indexed.
    apply compact_indexed. intros j x Hj. cbn [Nat.add].
    destruct (Hf (Z.of_nat j)) as (v & Hv & E).
    { assert (Hb : (j < length (dense_data s))%nat)
        by (apply nth_error_Some; congruence).
      lia. }
    rewrite Nat2Z.id in Hv. rewrite E.
    assert (v = x) by congruence. subst v. reflexivity. }
  destruct (Series._mask s) as [m|] eqn:Em.
  - unfold cudautils.copy_to_dense. cbn [bind].
    fold (dense_data s).
    set (kept := map snd (filter _ (cudautils.indexed (dense_data s)))).
    assert (Hk : kept = flat_map (fun i => match Series.getitem_int s (Z.of_nat i) with
                                           | Ok (Some v) => [v]
                                           | _ => []
                                           end)
                          (seq 0 (Z.to_nat (Series.__len__ s)))).
    { apply (Hall (cudautils.valid_at (Buffer.to_gpu_array m))). intros i Hi.
      destruct (Series_getitem_int_inside s i Hwf Hi) as (v & Hv & H).
      rewrite Em in H. destruct H as (byte & _ & Ev & E).
      exists v. split; [exact Hv|]. rewrite E, Ev.
      destruct byte as [z|x]; [|reflexivity].
      destruct (Z.testbit z (i mod 8)); reflexivity. }
    assert (Hkl : (length kept <= length (dense_data s))%nat).
    { unfold kept. rewrite length_map.
      etransitivity; [apply filter_length_le|]. rewrite length_indexed. lia. }
    eexists. split; [reflexivity|].
    assert (Hd : nd_data (Buffer.to_gpu_array
                   (Buffer.__init__ (mk_ndarray (nd_dtype (Buffer.to_gpu_array (Series._data s))) kept)
                      (Some (Z.of_nat (length kept)))
                      (Some (nd_size (mk_ndarray (nd_dtype (Buffer.to_gpu_array (Series._data s))) kept)))))
                 = kept).
    { unfold Buffer.to_gpu_array at 1, nd_slice1, Buffer.__init__, cudautils.to_device.
      cbn [Buffer.mem Buffer.size nd_data].
      rewrite slice1_prefix by lia. rewrite Nat2Z.id. apply firstn_all. }
    split.
    + etransitivity; [exact Hd|exact Hk].
    + unfold nd_size.
      etransitivity; [apply Z.eq_le_incl, f_equal, f_equal; exact Hd|].
      unfold Series.__len__, dense_data in *. lia.
  - eexists. split; [reflexivity|]. split.
    + fold (dense_data s).
      rewrite <- (Hall (fun _ => true)).
      * rewrite filter_all_indexed, map_snd_indexed. reflexivity.
      * intros i Hi.
        destruct (Series_getitem_int_inside s i Hwf Hi) as (v & Hv & H).
        rewrite Em in H. exists v. split; [exact Hv|]. rewrite H. reflexivity.
    + rewrite (Buffer_dense_size _ Hwd). unfold Series.__len__. lia.
Qed.

Lemma Series_to_array_skips_nulls_witness :
  let s := Series.mk 3 int64 (Buffer.__init__ (ints int64 [10; 20; 30]) None None)
             (Some (Buffer.__init__ (ints uint8 [5]) None None)) 1
             (Series.NumericalSeriesImpl int64) in
  Series.to_array s Series.FillNone = Ok (ints int64 [10; 30]).
Proof.
  intros s.
  assert (Hwf : Series_wf s) by (vm_compute; intuition discriminate).
  destruct (Series_to_array_skips_nulls s Hwf) as (arr & E & Hd & _).
  rewrite E. vm_compute in E. injection E as <-. reflexivity.
Defined.

(** [_empty_like] keeps the invariant: the new Series has the length of
    the source, the given dtype, and, when a mask is asked for, a mask of
    one bit per row with every row counted as null; when no mask is asked
    for, the mask and the null count of the source are carried over. *)
Theorem Series_empty_like_wf (s : Series.t) (d : np_dtype) (has_mask : bool)
    (impl : Series.SeriesImpl) :
  Series_wf s ->
  Series_wf (Series._empty_like s d has_mask impl) /\
  Series.__len__ (Series._empty_like s d has_mask impl) = Series.__len__ s /\
  Series.dtype (Series._empty_like s d has_mask impl) = d /\
  Buffer.dtype (Series.data (Series._empty_like s d has_mask impl)) = d /\
  (has_mask = true ->
   Series.has_null_mask (Series._empty_like s d has_mask impl) = true /\
   Series.null_count (Series._empty_like s d has_mask impl) = Series.__len__ s) /\
  (has_mask = false ->
   Series._mask (Series._empty_like s d has_mask impl) = Series._mask s /\
   Series.null_count (Series._empty_like s d has_mask impl) = Series.null_count s).
Proof.
  intros (Hwd & Hsz & Hmask). pose proof Hwd as [Hd1 _].
  assert (Hlen : 0 <= Series.__len__ s) by (unfold Series.__len__; lia).
  assert (Hn : nd_size (device_array (Series.__len__ s) d) = Series.__len__ s)
    by (apply nd_size_device_array, Hlen).
  unfold Series._empty_like. unfold Series.__len__ in Hn, Hlen.
  destruct has_mask;
    unfold Series._copy_construct, Series.__init__, Series.__len__, Series.dtype,
      Series.data, Series.has_null_mask, Series.null_count;
    cbn [Series.kw_size Series.kw_dtype Series.kw_buffer Series.kw_mask
         Series.kw_null_count Series.kw_impl Series._size Series._data
         Series._mask Series._dtype Series._null_count].
  - split; [|repeat split; try discriminate; exact Hn].
    split; [apply Buffer_init_wf|]. split.
    + unfold Buffer.__init__. cbn [Buffer.size]. symmetry. exact Hn.
    + split; [apply Buffer_init_wf|].
      unfold Buffer.__init__. cbn [Buffer.size].
      rewrite Hn. apply nd_size_device_array.
      cbn [Series._size].
      unfold utils.calc_chunk_size, utils.mask_bitsize.
      Z.div_mod_to_equations. lia.
  - split; [|repeat split; discriminate].
    split; [apply Buffer_init_wf|]. split.
    + unfold Buffer.__init__. cbn [Buffer.size]. symmetry. exact Hn.
    + exact Hmask.
Qed.

Lemma Series_empty_like_wf_witness :
  let s := Series.from_array (ints int64 [1; 2; 3]) in
  Series_wf (Series._empty_like s float64 true (Series.NumericalSeriesImpl float64)) /\
  Series.null_count
    (Series._empty_like s float64 true (Series.NumericalSeriesImpl float64)) = 3.
Proof.
  intros s.
  destruct (Series_empty_like_wf s float64 true (Series.NumericalSeriesImpl float64))
    as (Hwf & _ & _ & _ & H & _); [apply Series_from_array_wf|].
  split; [exact Hwf|]. destruct (H eq_refl) as [_ ->]. reflexivity.
Defined.

(** ** [DataFrame] *)

Lemma contains_In (name : string) (cols : list (string * Series.t)) :
  DataFrame.contains name cols = true <-> In name (map fst cols).
Proof.
  unfold DataFrame.contains.
  induction cols as [|[k w] cols IH]; cbn.
  - split; [discriminate|contradiction].
  - destruct (String.eqb_spec k name) as [->|Hk].
    + split; auto.
    + rewrite IH. split; [auto|]. intros [H|H]; [contradiction|exact H].
Qed.

Lemma contains_false (name : string) (cols : list (string * Series.t)) :
  DataFrame.contains name cols = false <-> ~ In name (map fst cols).
Proof.
  rewrite <- contains_In. destruct (DataFrame.contains name cols); split;
    congruence.
Qed.

Lemma lookup_absent (name : string) (cols : list (string * Series.t)) :
  ~ In name (map fst cols) -> DataFrame.lookup name cols = None.
Proof.
  intros H. apply contains_false in H. unfold DataFrame.contains in H.
  destruct (DataFrame.lookup name cols); [discriminate|reflexivity].
Qed.

Lemma lookup_app (k : string) (cols cols' : list (string * Series.t)) :
  DataFrame.lookup k (cols ++ cols')
  = match DataFrame.lookup k cols with
    | Some c => Some c
    | None => DataFrame.lookup k cols'
    end.
Proof.
  induction cols as [|[k' w] cols IH]; cbn; [reflexivity|].
  destruct (String.eqb k' k); [reflexivity|exact IH].
Qed.

Lemma lookup_dict_del_same (name : string) (cols : list (string * Series.t)) :
  NoDup (map fst cols) -> DataFrame.lookup name (DataFrame.dict_del name cols) = None.
Proof.
  induction cols as [|[k w] cols IH]; cbn; [reflexivity|].
  intros Hnd. inversion Hnd as [|? ? Hk Hnd']; subst.
  destruct (String.eqb_spec k name) as [->|Hn].
  - apply lookup_absent, Hk.
  - cbn. destruct (String.eqb_spec k name); [contradiction|]. apply IH, Hnd'.
Qed.

Lemma lookup_dict_del_other (name k : string) (cols : list (string * Series.t)) :
  k <> name ->
  DataFrame.lookup k (DataFrame.dict_del name cols) = DataFrame.lookup k cols.
Proof.
  intros Hk. induction cols as [|[k' w] cols IH]; cbn; [reflexivity|].
  destruct (String.eqb_spec k' name) as [->|Hn]; cbn.
  - destruct (String.eqb_spec name k); [congruence|reflexivity].
  - destruct (String.eqb k' k); [reflexivity|exact IH].
Qed.

Lemma keys_dict_del (name : string) (cols : list (string * Series.t)) :
  NoDup (map fst cols) ->
  map fst (DataFrame.dict_del name cols)
  = filter (fun k => negb (String.eqb k name)) (map fst cols).
Proof.
  induction cols as [|[k w] cols IH]; cbn; [reflexivity|].
  intros Hnd. inversion Hnd as [|? ? Hk Hnd']; subst.
  destruct (String.eqb_spec k name) as [->|Hn]; cbn.
  - symmetry. apply forallb_filter_id. apply forallb_forall. intros x Hx.
    destruct (String.eqb_spec x name); [subst; contradiction|reflexivity].
  - rewrite (IH Hnd'). reflexivity.
Qed.

Lemma dict_del_incl (name : string) (cols : list (string * Series.t)) :
  incl (DataFrame.dict_del name cols) cols.
Proof.
  induction cols as [|[k w] cols IH]; cbn; [apply incl_refl|].
  destruct (String.eqb k name).
  - apply incl_tl, incl_refl.
  - intros x [<-|Hx]; [left; reflexivity|right; apply IH, Hx].
Qed.

Lemma dict_del_added (name : string) (v : Series.t)
    (cols : list (string * Series.t)) :
  DataFrame.contains name cols = false ->
  DataFrame.dict_del name (cols ++ [(name, v)]) = cols.
Proof.
  unfold DataFrame.contains.
  induction cols as [|[k w] cols IH]; cbn.
  - rewrite String.eqb_refl. reflexivity.
  - destruct (String.eqb k name); [discriminate|].
    intros H. rewrite (IH H). reflexivity.
Qed.

(** [drop_column] and [__delitem__]: a name that is not there raises
    [NameError] and changes nothing; otherwise the named column is
    removed and no other, the order of the other columns and the row
    count are kept, and the invariants are kept.  The row count is not
    reset: after the last column is dropped it is still there, without
    effect on the next [add_column], which accepts any length. *)
Theorem drop_column_spec (df : DataFrame.t) (name : string) :
  (DataFrame.contains name (DataFrame._cols df) = false ->
   DataFrame.__delitem__ df name = (Raise NameError, df)) /\
  (DataFrame.contains name (DataFrame._cols df) = true ->
   unique_names df ->
   exists df',
     DataFrame.__delitem__ df name = (Ok tt, df') /\
     DataFrame.__getitem__ df' name = Raise KeyError /\
     (forall k, k <> name ->
        DataFrame.__getitem__ df' k = DataFrame.__getitem__ df k) /\
     DataFrame.columns df'
     = filter (fun k => negb (String.eqb k name)) (DataFrame.columns df) /\
     DataFrame.__len__ df' = DataFrame.__len__ df /\
     unique_names df' /\
     (DataFrame_wf df -> DataFrame_wf df') /\
     (DataFrame._cols df' = [] ->
      forall name' data,
        exists df'',
          DataFrame.add_column df' name' data = (Ok tt, df'') /\
          DataFrame.__len__ df''
          = Series.__len__ (Series.from_any data))).
Proof.
  unfold DataFrame.__delitem__, DataFrame.drop_column. split.
  - intros ->. reflexivity.
  - intros -> Hnd. cbn [negb]. eexists. split; [reflexivity|].
    unfold DataFrame.__getitem__, DataFrame.columns, DataFrame.__len__,
      unique_names, DataFrame_wf in *.
    cbn [DataFrame._cols DataFrame._size].
    split; [rewrite lookup_dict_del_same by exact Hnd; reflexivity|].
    split; [intros k Hk; rewrite lookup_dict_del_other by exact Hk; reflexivity|].
    split; [apply keys_dict_del, Hnd|]. split; [reflexivity|].
    split; [|split].
    + unfold DataFrame.columns. cbn [DataFrame._cols].
      rewrite keys_dict_del by exact Hnd. apply NoDup_filter, Hnd.
    + intros Hwf. rewrite Forall_forall in *. intros x Hx.
      apply Hwf, (dict_del_incl name), Hx.
    + intros E name' data. unfold DataFrame.add_column, DataFrame._sentry_column_size.
      cbn [DataFrame._cols DataFrame._size]. rewrite E. cbn.
      eexists. split; reflexivity.
Qed.

Lemma drop_column_spec_witness :
  let a := Series.from_array (ints int64 [1; 2]) in
  let b := Series.from_array (ints int64 [3; 4]) in
  let df := DataFrame.mk 2 [("a"%string, a); ("b"%string, b)] in
  DataFrame.__delitem__ df "a"%string = (Ok tt, DataFrame.mk 2 [("b"%string, b)]) /\
  DataFrame.__delitem__ df "c"%string = (Raise NameError, df).
Proof.
  intros a b df. destruct (drop_column_spec df "a"%string) as [_ H].
  destruct (drop_column_spec df "c"%string) as [H' _].
  split; [|apply H'; reflexivity].
  destruct H as (df' & E & _); [reflexivity| |].
  - repeat constructor; cbn; intuition discriminate.
  - rewrite E. vm_compute in E. injection E as <-. reflexivity.
Defined.

(** What a successful [add_column] leaves. *)
Lemma add_column_ok (df : DataFrame.t) (name : string) (data : Series.arbitrary) :
  DataFrame.contains name (DataFrame._cols df) = false ->
  DataFrame._cols df = [] \/
  Series.__len__ (Series.from_any data) = DataFrame._size df ->
  DataFrame.add_column df name data
  = (Ok tt, DataFrame.mk (Series.__len__ (Series.from_any data))
              (DataFrame._cols df ++ [(name, Series.from_any data)])).
Proof.
  intros Hn Hs. unfold DataFrame.add_column, DataFrame._sentry_column_size.
  rewrite Hn. cbv zeta. rewrite (dict_set_absent _ _ _ Hn).
  destruct (DataFrame._cols df) as [|kc cols]; [reflexivity|].
  destruct Hs as [Hs|Hs]; [discriminate|].
  destruct (Z.eqb_spec (DataFrame._size df) (Series.__len__ (Series.from_any data)));
    [reflexivity|congruence].
Qed.

(** [add_column]: a name that is taken raises [NameError]; on a
    dataframe that has columns, a length other than the row count raises
    [ValueError]; in both cases nothing changes.  Otherwise the column is
    added behind the others: the name reads back the converted data,
    every other name reads what it read before, the row count is the
    length of the column, and the invariants are kept. *)
Theorem add_column_spec (df : DataFrame.t) (name : string)
    (data : Series.arbitrary) :
  (DataFrame.contains name (DataFrame._cols df) = true ->
   DataFrame.add_column df name data = (Raise NameError, df)) /\
  (DataFrame.contains name (DataFrame._cols df) = false ->
   DataFrame._cols df <> [] ->
   Series.__len__ (Series.from_any data) <> DataFrame.__len__ df ->
   DataFrame.add_column df name data = (Raise ValueError, df)) /\
  (DataFrame.contains name (DataFrame._cols df) = false ->
   DataFrame._cols df = [] \/
   Series.__len__ (Series.from_any data) = DataFrame.__len__ df ->
   exists df',
     DataFrame.add_column df name data = (Ok tt, df') /\
     DataFrame.__getitem__ df' name = Ok (Series.from_any data) /\
     (forall k, k <> name ->
        DataFrame.__getitem__ df' k = DataFrame.__getitem__ df k) /\
     DataFrame.columns df' = DataFrame.columns df ++ [name] /\
     DataFrame.__len__ df' = Series.__len__ (Series.from_any data) /\
     (unique_names df -> unique_names df') /\
     (DataFrame_wf df -> Series_wf (Series.from_any data) -> DataFrame_wf df')).
Proof.
  split; [|split].
  - intros H. unfold DataFrame.add_column. rewrite H. reflexivity.
  - apply add_column_size_sentry.
  - intros Hn Hs. pose proof (add_column_ok df name data Hn Hs) as E.
    eexists. split; [exact E|].
    unfold DataFrame.__getitem__, DataFrame.columns, DataFrame.__len__, unique_names.
    cbn [DataFrame._cols DataFrame._size].
    split; [|split; [|split; [|split; [reflexivity|split]]]].
    + rewrite lookup_app, (lookup_absent name) by (apply contains_false, Hn).
      cbn. rewrite String.eqb_refl. reflexivity.
    + intros k Hk. rewrite lookup_app.
      destruct (DataFrame.lookup k (DataFrame._cols df)); [reflexivity|].
      cbn. destruct (String.eqb_spec name k); [congruence|reflexivity].
    + rewrite map_app. reflexivity.
    + intros Hnd. unfold DataFrame.columns. cbn [DataFrame._cols].
      rewrite map_app. cbn. apply NoDup_app; [exact Hnd|repeat constructor; auto|].
      intros x Hx [<-|[]]. apply contains_false in Hn. contradiction.
    + intros Hwf Hser. exact (add_column_wf df _ name data Hwf Hser E).
Qed.

Lemma add_column_spec_witness :
  let a := Series.from_array (ints int64 [1; 2]) in
  let df := DataFrame.mk 2 [("a"%string, a)] in
  (exists df',
     DataFrame.add_column df "b"%string (Series.AArray (ints int64 [3; 4]))
     = (Ok tt, df') /\
     DataFrame.columns df' = ["a"%string; "b"%string]) /\
  DataFrame.add_column df "a"%string (Series.AArray (ints int64 [3; 4]))
  = (Raise NameError, df) /\
  DataFrame.add_column df "b"%string (Series.AArray (ints int64 [3]))
  = (Raise ValueError, df).
Proof.
  intros a df.
  destruct (add_column_spec df "b"%string (Series.AArray (ints int64 [3; 4])))
    as (_ & _ & H).
  destruct (add_column_spec df "a"%string (Series.AArray (ints int64 [3; 4])))
    as (H1 & _).
  destruct (add_column_spec df "b"%string (Series.AArray (ints int64 [3])))
    as (_ & H2 & _).
  split; [|split; [apply H1; reflexivity|apply H2; [reflexivity|discriminate|discriminate]]].
  destruct H as (df' & E & _ & _ & Hc & _); [reflexivity|right; reflexivity|].
  exists df'. split; [exact E|exact Hc].
Defined.

(** Dropping the column that [add_column] has just added gives back the
    columns as they were; on a dataframe that had columns it gives back
    the dataframe. *)
Theorem add_then_drop (df df' : DataFrame.t) (name : string)
    (data : Series.arbitrary) :
  DataFrame.add_column df name data = (Ok tt, df') ->
  DataFrame.drop_column df' name
  = (Ok tt, DataFrame.mk (Series.__len__ (Series.from_any data))
              (DataFrame._cols df)) /\
  (DataFrame._cols df <> [] -> DataFrame.drop_column df' name = (Ok tt, df)).
Proof.
  intros E.
  assert (Hn : DataFrame.contains name (DataFrame._cols df) = false).
  { unfold DataFrame.add_column in E.
    destruct (DataFrame.contains name (DataFrame._cols df)); [discriminate|reflexivity]. }
  assert (Hs : DataFrame._cols df = [] \/
               Series.__len__ (Series.from_any data) = DataFrame._size df).
  { destruct (DataFrame._cols df) as [|kc cols] eqn:Ec; [left; reflexivity|right].
    unfold DataFrame.add_column, DataFrame._sentry_column_size in E.
    rewrite Ec, Hn in E.
    destruct (Z.eqb_spec (DataFrame._size df) (Series.__len__ (Series.from_any data)));
      [congruence|discriminate]. }
  rewrite (add_column_ok df name data Hn Hs) in E. injection E as <-.
  assert (Ed : DataFrame.drop_column
                 (DataFrame.mk (Series.__len__ (Series.from_any data))
                    (DataFrame._cols df ++ [(name, Series.from_any data)])) name
               = (Ok tt, DataFrame.mk (Series.__len__ (Series.from_any data))
                           (DataFrame._cols df))).
  { unfold DataFrame.drop_column. cbn [DataFrame._cols DataFrame._size].
    assert (Hc : DataFrame.contains name
                   (DataFrame._cols df ++ [(name, Series.from_any data)]) = true).
    { apply contains_In. rewrite map_app. apply in_or_app. right. left. reflexivity. }
    rewrite Hc, (dict_del_added _ _ _ Hn). reflexivity. }
  split; [exact Ed|]. intros Hne. rewrite Ed.
  destruct Hs as [Hs|Hs]; [contradiction|]. rewrite Hs. destruct df; reflexivity.
Qed.

Lemma add_then_drop_witness :
  let a := Series.from_array (ints int64 [1; 2]) in
  let b := Series.from_array (ints int64 [3; 4]) in
  let df := DataFrame.mk 2 [("a"%string, a)] in
  DataFrame.drop_column (DataFrame.mk 2 [("a"%string, a); ("b"%string, b)]) "b"%string
  = (Ok tt, df).
Proof.
  intros a b df.
  destruct (add_then_drop df (DataFrame.mk 2 [("a"%string, a); ("b"%string, b)])
              "b"%string (Series.ASeries b)) as [_ H]; [reflexivity|].
  apply H. discriminate.
Defined.

(** [__setitem__], both branches: it succeeds when the name is there,
    when the dataframe has no column, or when the column has as many rows
    as the dataframe; then the name reads back the column and every
    other name reads what it read before.  Otherwise it raises
    [ValueError] and the dataframe is unchanged. *)
Theorem setitem_spec (df : DataFrame.t) (name : string) (col : Series.t) :
  (DataFrame.contains name (DataFrame._cols df) = true \/
   DataFrame._cols df = [] \/
   Series.__len__ col = DataFrame.__len__ df ->
   exists df',
     DataFrame.__setitem__ df name col = (Ok tt, df') /\
     DataFrame.__getitem__ df' name = Ok col /\
     forall k, k <> name ->
       DataFrame.__getitem__ df' k = DataFrame.__getitem__ df k) /\
  (DataFrame.contains name (DataFrame._cols df) = false ->
   DataFrame._cols df <> [] ->
   Series.__len__ col <> DataFrame.__len__ df ->
   DataFrame.__setitem__ df name col = (Raise ValueError, df)).
Proof.
  unfold DataFrame.__setitem__. split.
  - intros H.
    destruct (DataFrame.contains name (DataFrame._cols df)) eqn:Hn.
    + eexists. split; [reflexivity|].
      unfold DataFrame.__getitem__. cbn [DataFrame._cols].
      split; [rewrite lookup_dict_set_same; reflexivity|].
      intros k Hk. rewrite lookup_dict_set_other by exact Hk. reflexivity.
    + destruct H as [H|H]; [discriminate|].
      rewrite (add_column_ok df name (Series.ASeries col) Hn H).
      eexists. split; [reflexivity|].
      unfold DataFrame.__getitem__. cbn [DataFrame._cols]. split.
      * rewrite lookup_app, (lookup_absent name) by (apply contains_false, Hn).
        cbn. rewrite String.eqb_refl. reflexivity.
      * intros k Hk. rewrite lookup_app.
        destruct (DataFrame.lookup k (DataFrame._cols df)); [reflexivity|].
        cbn. destruct (String.eqb_spec name k); [congruence|reflexivity].
  - intros Hn Hne Hlen. rewrite Hn.
    apply add_column_size_sentry; assumption.
Qed.

Lemma setitem_spec_witness :
  let a := Series.from_array (ints int64 [1; 2]) in
  let b := Series.from_array (ints int64 [3; 4]) in
  let df := DataFrame.mk 2 [("a"%string, a)] in
  exists df',
    DataFrame.__setitem__ df "b"%string b = (Ok tt, df') /\
    DataFrame.__getitem__ df' "b"%string = Ok b /\
    DataFrame.__getitem__ df' "a"%string = Ok a.
Proof.
  intros a b df. destruct (setitem_spec df "b"%string b) as [H _].
  destruct H as (df' & E & Hb & Ho); [right; right; reflexivity|].
  exists df'. split; [exact E|]. split; [exact Hb|].
  rewrite Ho by discriminate. reflexivity.
Defined.

(** *** [DataFrame.__init__] *)


Lemma add_columns_ok (l : list (string * Series.arbitrary)) :
  forall (df : DataFrame.t) (n : Z),
    NoDup (DataFrame.columns df ++ map fst l) ->
    Forall (fun p => Series.__len__ (Series.from_any (snd p)) = n) l ->
    DataFrame._cols df = [] \/ DataFrame._size df = n ->
    DataFrame.add_columns df l
    = (Ok tt, DataFrame.mk (match l with [] => DataFrame._size df | _ => n end)
                (DataFrame._cols df ++ converted l)).
Proof.
  induction l as [|[k d] l IH]; intros df n Hnd Hlen Hs.
  - cbn. rewrite app_nil_r. destruct df; reflexivity.
  - apply Forall_cons_iff in Hlen as [Hk Hl]. cbn [snd] in Hk.
    cbn [DataFrame.add_columns].
    assert (Hn : DataFrame.contains k (DataFrame._cols df) = false).
    { apply contains_false. intros Hin. cbn in Hnd.
      apply NoDup_remove_2 in Hnd. apply Hnd, in_or_app. left. exact Hin. }
    rewrite (add_column_ok df k d Hn) by (rewrite Hk; destruct Hs; auto).
    rewrite Hk, (IH _ n).
    + cbn [DataFrame._cols DataFrame._size converted map fst snd].
      rewrite <- app_assoc. cbn. destruct l; reflexivity.
    + unfold DataFrame.columns in *. cbn [DataFrame._cols].
      rewrite map_app, <- app_assoc. exact Hnd.
    + exact Hl.
    + right. reflexivity.
Qed.

Lemma add_columns_duplicate (l : list (string * Series.arbitrary)) :
  forall (df : DataFrame.t) (n : Z),
    NoDup (DataFrame.columns df) ->
    ~ NoDup (DataFrame.columns df ++ map fst l) ->
    Forall (fun p => Series.__len__ (Series.from_any (snd p)) = n) l ->
    DataFrame._cols df = [] \/ DataFrame._size df = n ->
    fst (DataFrame.add_columns df l) = Raise NameError.
Proof.
  induction l as [|[k d] l IH]; intros df n Hnd Hdup Hlen Hs.
  - cbn in Hdup. rewrite app_nil_r in Hdup. contradiction.
  - apply Forall_cons_iff in Hlen as [Hk Hl]. cbn [snd] in Hk.
    cbn [DataFrame.add_columns].
    destruct (DataFrame.contains k (DataFrame._cols df)) eqn:Hn.
    + unfold DataFrame.add_column. rewrite Hn. reflexivity.
    + rewrite (add_column_ok df k d Hn) by (rewrite Hk; destruct Hs; auto).
      rewrite Hk. apply (IH _ n).
      * unfold DataFrame.columns in *. cbn [DataFrame._cols]. rewrite map_app. cbn.
        apply NoDup_app; [exact Hnd|repeat constructor; auto|].
        intros x Hx [<-|[]]. apply contains_false in Hn. contradiction.
      * unfold DataFrame.columns in *. cbn [DataFrame._cols].
        rewrite map_app, <- app_assoc. exact Hdup.
      * exact Hl.
      * right. reflexivity.
Qed.

Lemma add_columns_mismatch (l : list (string * Series.arbitrary)) :
  forall df : DataFrame.t,
    DataFrame._cols df <> [] ->
    NoDup (DataFrame.columns df ++ map fst l) ->
    Exists (fun p => Series.__len__ (Series.from_any (snd p)) <> DataFrame._size df) l ->
    fst (DataFrame.add_columns df l) = Raise ValueError.
Proof.
  induction l as [|[k d] l IH]; intros df Hne Hnd Hex; [inversion Hex|].
  cbn [DataFrame.add_columns].
  assert (Hn : DataFrame.contains k (DataFrame._cols df) = false).
  { apply contains_false. intros Hin. cbn in Hnd.
    apply NoDup_remove_2 in Hnd. apply Hnd, in_or_app. left. exact Hin. }
  destruct (Z.eq_dec (Series.__len__ (Series.from_any d)) (DataFrame._size df))
    as [Hk|Hk].
  - rewrite (add_column_ok df k d Hn) by (right; exact Hk).
    apply IH.
    + cbn [DataFrame._cols]. destruct (DataFrame._cols df); discriminate.
    + unfold DataFrame.columns in *. cbn [DataFrame._cols].
      rewrite map_app, <- app_assoc. exact Hnd.
    + cbn [DataFrame._size]. rewrite Hk.
      inversion Hex as [? ? H|? ? H]; subst; [contradiction|exact H].
  - rewrite (add_column_size_sentry df k d Hn Hne Hk). reflexivity.
Qed.

(** [DataFrame.__init__] with an initializer: when the names are
    distinct and the columns have one length, it returns the dataframe of
    the converted columns, in the order given, with that length as its
    row count, and the dataframe is within its invariants.  A name that
    comes twice raises [NameError]; with distinct names, a first column
    whose length is not the one of the columns behind it raises
    [ValueError]. *)
Theorem DataFrame_init_spec (l : list (string * Series.arbitrary)) (n : Z) :
  Forall (fun p => Series.__len__ (Series.from_any (snd p)) = n) l ->
  (NoDup (map fst l) ->
   exists df,
     DataFrame.__init__ (Some l) = Ok df /\
     DataFrame._cols df = converted l /\
     DataFrame.columns df = map fst l /\
     (l <> [] -> DataFrame.__len__ df = n) /\
     unique_names df /\
     (Forall (fun p => Series_wf (Series.from_any (snd p))) l -> DataFrame_wf df)) /\
  (~ NoDup (map fst l) -> DataFrame.__init__ (Some l) = Raise NameError) /\
  (forall k d, NoDup (k :: map fst l) ->
     Series.__len__ (Series.from_any d) <> n -> l <> [] ->
     DataFrame.__init__ (Some ((k, d) :: l)) = Raise ValueError).
Proof.
  intros Hlen. unfold DataFrame.__init__. split; [|split].
  - intros Hnd.
    rewrite (add_columns_ok l (DataFrame.mk 0 []) n) by (auto; exact Hnd).
    cbn [DataFrame._cols app]. eexists. split; [reflexivity|].
    cbn [DataFrame._cols]. split; [reflexivity|].
    assert (Hc : map fst (converted l) = map fst l).
    { unfold converted. rewrite map_map. reflexivity. }
    unfold DataFrame.columns, DataFrame.__len__, unique_names, DataFrame_wf.
    cbn [DataFrame._cols DataFrame._size].
    split; [exact Hc|]. split; [destruct l; [congruence|reflexivity]|].
    split; [unfold DataFrame.columns; cbn [DataFrame._cols]; rewrite Hc; exact Hnd|].
    intros Hwf. unfold converted. apply Forall_map.
    rewrite Forall_forall in *. intros p Hp. cbn [snd].
    split; [apply Hwf, Hp|].
    destruct l; [destruct Hp|]. apply (Hlen p Hp).
  - intros Hdup.
    pose proof (add_columns_duplicate l (DataFrame.mk 0 []) n) as H.
    destruct (DataFrame.add_columns (DataFrame.mk 0 []) l) as [r df'].
    cbn [fst] in H. rewrite H; auto. constructor.
  - intros k d Hnd Hk Hne. cbn [DataFrame.add_columns].
    rewrite (add_column_ok (DataFrame.mk 0 []) k d) by auto.
    pose proof (add_columns_mismatch l
                  (DataFrame.mk (Series.__len__ (Series.from_any d))
                     ([] ++ [(k, Series.from_any d)]))) as H.
    destruct (DataFrame.add_columns _ l) as [r df'].
    cbn [fst] in H. rewrite H; [reflexivity|discriminate|exact Hnd|].
    cbn [DataFrame._size]. destruct l as [|p l]; [congruence|].
    left. apply Forall_cons_iff in Hlen as [Hp _]. cbn [snd]. congruence.
Qed.

Lemma DataFrame_init_spec_witness :
  let l := [("a"%string, Series.AArray (ints int64 [1; 2]));
            ("b"%string, Series.AArray (ints int64 [3; 4]))] in
  (exists df, DataFrame.__init__ (Some l) = Ok df /\
              DataFrame.columns df = ["a"%string; "b"%string] /\
              DataFrame.__len__ df = 2) /\
  DataFrame.__init__ (Some (("c"%string, Series.AArray (ints int64 [5])) :: l))
  = Raise ValueError.
Proof.
  intros l.
  destruct (DataFrame_init_spec l 2) as (H & _ & H').
  { repeat constructor. }
  split.
  - destruct H as (df & E & _ & Hc & Hn & _).
    { repeat constructor; cbn; intuition discriminate. }
    exists df. split; [exact E|]. split; [exact Hc|]. apply Hn. discriminate.
  - apply H'; [|discriminate|discriminate].
    repeat constructor; cbn; intuition discriminate.
Defined.

(** *** [DataFrame.copy] *)

Lemma lookup_NoDup_In (k : string) (c : Series.t)
    (cols : list (string * Series.t)) :
  NoDup (map fst cols) -> In (k, c) cols -> DataFrame.lookup k cols = Some c.
Proof.
  induction cols as [|[k' w] cols IH]; cbn; [contradiction|].
  intros Hnd [Hin|Hin]; inversion Hnd as [|? ? Hk Hnd']; subst.
  - injection Hin as -> ->. rewrite String.eqb_refl. reflexivity.
  - destruct (String.eqb_spec k' k) as [->|Hne]; [|apply IH; assumption].
    exfalso. apply Hk. apply (in_map fst) in Hin. exact Hin.
Qed.

(** [__setitem__] of a name that is not there, with a length that the
    sentry accepts. *)
Lemma setitem_fresh_ok (df : DataFrame.t) (k : string) (c : Series.t) :
  DataFrame.contains k (DataFrame._cols df) = false ->
  DataFrame._cols df = [] \/ Series.__len__ c = DataFrame._size df ->
  DataFrame.__setitem__ df k c
  = (Ok tt, DataFrame.mk (Series.__len__ c) (DataFrame._cols df ++ [(k, c)])).
Proof.
  intros Hn Hs. unfold DataFrame.__setitem__. rewrite Hn.
  apply (add_column_ok df k (Series.ASeries c) Hn Hs).
Qed.

Lemma fresh_head (k : string) (names present : list string) :
  NoDup (present ++ k :: names) -> ~ In k present.
Proof.
  intros Hnd Hin. apply NoDup_remove_2 in Hnd. apply Hnd, in_or_app. left. exact Hin.
Qed.

Lemma copy_each_ok (self : DataFrame.t) (items : list (string * Series.t)) :
  forall (df : DataFrame.t) (n : Z),
    (forall k c, In (k, c) items ->
       DataFrame.lookup k (DataFrame._cols self) = Some c) ->
    NoDup (DataFrame.columns df ++ map fst items) ->
    Forall (fun kc => Series.__len__ (snd kc) = n) items ->
    DataFrame._cols df = [] \/ DataFrame._size df = n ->
    DataFrame.copy_each self df (map fst items)
    = (Ok tt, DataFrame.mk (match items with [] => DataFrame._size df | _ => n end)
                (DataFrame._cols df ++ items)).
Proof.
  induction items as [|[k c] items IH]; intros df n Hlook Hnd Hlen Hs.
  - cbn. rewrite app_nil_r. destruct df; reflexivity.
  - apply Forall_cons_iff in Hlen as [Hk Hl]. cbn [snd] in Hk.
    cbn [map fst DataFrame.copy_each]. unfold DataFrame.__getitem__.
    rewrite (Hlook k c (or_introl eq_refl)).
    assert (Hn : DataFrame.contains k (DataFrame._cols df) = false)
      by (apply contains_false, (fresh_head k (map fst items)), Hnd).
    rewrite (setitem_fresh_ok df k c Hn) by (rewrite Hk; destruct Hs; auto).
    rewrite Hk, (IH _ n).
    + cbn [DataFrame._cols DataFrame._size]. rewrite <- app_assoc. cbn.
      destruct items; reflexivity.
    + intros k' c' Hin. apply Hlook. right. exact Hin.
    + unfold DataFrame.columns in *. cbn [DataFrame._cols].
      rewrite map_app, <- app_assoc. exact Hnd.
    + exact Hl.
    + right. reflexivity.
Qed.

Lemma copy_each_mismatch (self : DataFrame.t) (items : list (string * Series.t)) :
  forall df : DataFrame.t,
    (forall k c, In (k, c) items ->
       DataFrame.lookup k (DataFrame._cols self) = Some c) ->
    DataFrame._cols df <> [] ->
    NoDup (DataFrame.columns df ++ map fst items) ->
    Exists (fun kc => Series.__len__ (snd kc) <> DataFrame._size df) items ->
    fst (DataFrame.copy_each self df (map fst items)) = Raise ValueError.
Proof.
  induction items as [|[k c] items IH]; intros df Hlook Hne Hnd Hex; [inversion Hex|].
  cbn [map fst DataFrame.copy_each]. unfold DataFrame.__getitem__.
  rewrite (Hlook k c (or_introl eq_refl)).
  assert (Hn : DataFrame.contains k (DataFrame._cols df) = false)
    by (apply contains_false, (fresh_head k (map fst items)), Hnd).
  destruct (Z.eq_dec (Series.__len__ c) (DataFrame._size df)) as [Hk|Hk].
  - rewrite (setitem_fresh_ok df k c Hn) by (right; exact Hk).
    apply IH.
    + intros k' c' Hin. apply Hlook. right. exact Hin.
    + cbn [DataFrame._cols]. destruct (DataFrame._cols df); discriminate.
    + unfold DataFrame.columns in *. cbn [DataFrame._cols].
      rewrite map_app, <- app_assoc. exact Hnd.
    + cbn [DataFrame._size]. rewrite Hk.
      inversion Hex as [? ? H|? ? H]; subst; [contradiction|exact H].
  - unfold DataFrame.__setitem__. rewrite Hn.
    rewrite (add_column_size_sentry df k (Series.ASeries c) Hn Hne Hk). reflexivity.
Qed.

(** [DataFrame.copy], for a dataframe whose names are distinct.  When
    the columns have one length it returns a dataframe with the same
    columns in the same order; a dataframe within its invariant that has
    a column is copied exactly.  When two columns have different lengths,
    which an assignment to a name that is there can bring about, [copy]
    raises [ValueError]. *)
Theorem DataFrame_copy_spec (self : DataFrame.t) :
  unique_names self ->
  (forall n, Forall (fun kc => Series.__len__ (snd kc) = n) (DataFrame._cols self) ->
     DataFrame.copy self
     = Ok (DataFrame.mk (match DataFrame._cols self with [] => 0 | _ => n end)
             (DataFrame._cols self))) /\
  (DataFrame_wf self -> DataFrame._cols self <> [] -> DataFrame.copy self = Ok self) /\
  (forall k c k' c',
     In (k, c) (DataFrame._cols self) -> In (k', c') (DataFrame._cols self) ->
     Series.__len__ c <> Series.__len__ c' ->
     DataFrame.copy self = Raise ValueError).
Proof.
  intros Hnd. unfold unique_names, DataFrame.columns in Hnd.
  assert (Hlook : forall k c, In (k, c) (DataFrame._cols self) ->
                    DataFrame.lookup k (DataFrame._cols self) = Some c)
    by (intros k c; apply lookup_NoDup_In, Hnd).
  assert (Huni : forall n,
            Forall (fun kc => Series.__len__ (snd kc) = n) (DataFrame._cols self) ->
            DataFrame.copy self
            = Ok (DataFrame.mk (match DataFrame._cols self with [] => 0 | _ => n end)
                    (DataFrame._cols self))).
  { intros n Hlen. unfold DataFrame.copy, DataFrame.columns.
    rewrite (copy_each_ok self (DataFrame._cols self) (DataFrame.mk 0 []) n);
      auto. }
  split; [exact Huni|]. split.
  - intros Hwf Hne. rewrite (Huni (DataFrame._size self)).
    + destruct self as [sz cols]. cbn in *. destruct cols; [congruence|reflexivity].
    + eapply Forall_impl; [|exact Hwf]. intros kc [_ H]. exact H.
  - intros k c k' c' Hin Hin' Hdiff. unfold DataFrame.copy, DataFrame.columns.
    destruct (DataFrame._cols self) as [|[k0 c0] rest] eqn:Ec; [destruct Hin|].
    cbn [map fst DataFrame.copy_each]. unfold DataFrame.__getitem__.
    rewrite Ec, (Hlook k0 c0 (or_introl eq_refl)).
    rewrite (setitem_fresh_ok (DataFrame.mk 0 []) k0 c0) by auto.
    pose proof (copy_each_mismatch self rest
                  (DataFrame.mk (Series.__len__ c0) ([] ++ [(k0, c0)]))) as H.
    rewrite Ec in H.
    destruct (DataFrame.copy_each self _ (map fst rest)) as [r df'].
    cbn [fst] in H. rewrite H; [reflexivity| |discriminate|exact Hnd|].
    + intros k1 c1 H1. apply Hlook. right. exact H1.
    + cbn [DataFrame._size]. apply Exists_exists.
      destruct (Z.eq_dec (Series.__len__ c) (Series.__len__ c0)) as [E|E].
      * exists (k', c'). split; [|cbn; congruence].
        destruct Hin' as [Hin'|Hin']; [|exact Hin'].
        injection Hin' as <- <-. congruence.
      * exists (k, c). split; [|exact E].
        destruct Hin as [Hin|Hin]; [|exact Hin].
        injection Hin as <- <-. congruence.
Qed.

Lemma DataFrame_copy_spec_witness :
  let a := Series.from_array (ints int64 [1; 2]) in
  let b := Series.from_array (ints int64 [3; 4]) in
  let c := Series.from_array (ints int64 [5; 6; 7]) in
  let df := DataFrame.mk 2 [("a"%string, a); ("b"%string, b)] in
  DataFrame.copy df = Ok df /\
  DataFrame.copy (DataFrame.mk 2 [("a"%string, c); ("b"%string, b)])
  = Raise ValueError.
Proof.
  intros a b c df.
  assert (Hnd : forall x y : Series.t,
            unique_names (DataFrame.mk 2 [("a"%string, x); ("b"%string, y)]))
    by (intros; repeat constructor; cbn; intuition discriminate).
  destruct (DataFrame_copy_spec df (Hnd a b)) as (_ & H & _).
  destruct (DataFrame_copy_spec _ (Hnd c b)) as (_ & _ & H').
  split.
  - apply H; [|discriminate].
    repeat constructor; vm_compute; intuition discriminate.
  - apply (H' "a"%string c "b"%string b); [left; reflexivity|right; left; reflexivity|].
    vm_compute. discriminate.
Defined.

(** *** [DataFrame.concat] *)



(** A column of a dataframe within its invariant. *)
Lemma DataFrame_column (df : DataFrame.t) (k : string) :
  DataFrame_wf df -> In k (DataFrame.columns df) ->
  exists c,
    DataFrame.lookup k (DataFrame._cols df) = Some c /\
    Series_wf c /\ Series.__len__ c = DataFrame.__len__ df.
Proof.
  intros Hwf Hin. apply contains_In in Hin. unfold DataFrame.contains in Hin.
  destruct (DataFrame.lookup k (DataFrame._cols df)) as [c|] eqn:E; [|discriminate].
  exists c. split; [reflexivity|].
  unfold DataFrame_wf in Hwf. rewrite Forall_forall in Hwf.
  apply (Hwf (k, c)), lookup_In, E.
Qed.



Lemma Forall2_In_l {A B : Type} (R : A -> B -> Prop) (l : list A) (l' : list B)
    (x : A) :
  Forall2 R l l' -> In x l -> exists y, In y l' /\ R x y.
Proof.
  induction 1 as [|a b l l' Hab _ IH]; [contradiction|].
  intros [<-|Hin].
  - exists b. split; [left; reflexivity|exact Hab].
  - destruct (IH Hin) as (y & Hy & Hr). exists y. split; [right; exact Hy|exact Hr].
Qed.





(** ** [Loc] *)

Lemma slice_each_ok (_df : DataFrame.t) (sl : slice) (hi : Z)
    (names : list string) :
  let lo := match start sl with Some a => a | None => 0 end in
  DataFrame_wf _df ->
  stop sl = Some hi ->
  step sl = None \/ step sl = Some 1 ->
  0 <= lo <= hi -> hi <= DataFrame.__len__ _df ->
  forall df : DataFrame.t,
    NoDup (DataFrame.columns df ++ names) ->
    (forall k, In k names -> In k (DataFrame.columns _df)) ->
    DataFrame._cols df = [] \/ DataFrame._size df = hi - lo ->
    exists items',
      Loc.slice_each _df df sl names
      = (Ok tt, DataFrame.mk (match names with
                              | [] => DataFrame._size df
                              | _ => hi - lo
                              end)
                  (DataFrame._cols df ++ items')) /\
      Forall2 (fun k kc' =>
                 fst kc' = k /\
                 exists c,
                   DataFrame.lookup k (DataFrame._cols _df) = Some c /\
                   Series.getitem_slice c sl = Ok (snd kc'))
              names items'.
Proof.
  intros lo Hwf Estop Hstep Hlo Hhi.
  induction names as [|k names IH]; intros df Hnd Hin Hs.
  - exists []. cbn. rewrite app_nil_r. split; [destruct df; reflexivity|constructor].
  - destruct (DataFrame_column _df k Hwf (Hin k (or_introl eq_refl)))
      as (c & Ec & Hc & Hlen).
    destruct (Series_getitem_slice_ok c sl hi Hc Estop Hstep Hlo)
      as (c' & E & Hsz & _); [lia|].
    fold lo in Hsz.
    cbn [Loc.slice_each]. unfold DataFrame.__getitem__.
    rewrite Ec. cbn [bind]. rewrite E.
    assert (Hn : DataFrame.contains k (DataFrame._cols df) = false)
      by (apply contains_false, (fresh_head k names), Hnd).
    rewrite (setitem_fresh_ok df k c' Hn)
      by (unfold Series.__len__; rewrite Hsz; destruct Hs; auto).
    unfold Series.__len__. rewrite Hsz.
    destruct (IH (DataFrame.mk (hi - lo) (DataFrame._cols df ++ [(k, c')])))
      as (items' & E' & HF).
    + unfold DataFrame.columns in *. cbn [DataFrame._cols].
      rewrite map_app, <- app_assoc. exact Hnd.
    + intros k' Hk'. apply Hin. right. exact Hk'.
    + right. reflexivity.
    + exists ((k, c') :: items'). rewrite E'.
      cbn [DataFrame._cols DataFrame._size]. rewrite <- app_assoc. split.
      * cbn. destruct names; reflexivity.
      * constructor; [|exact HF]. split; [reflexivity|].
        exists c. split; [exact Ec|exact E].
Qed.

Lemma Forall2_names {A : Type} (R : string -> string * A -> Prop)
    (names : list string) (l' : list (string * A)) :
  Forall2 (fun k kc' => fst kc' = k /\ R k kc') names l' -> map fst l' = names.
Proof.
  induction 1 as [|a b l l' [Hab _] _ IH]; [reflexivity|].
  cbn. rewrite Hab, IH. reflexivity.
Qed.

(** [Loc.__getitem__], the label-based indexer [df.loc].  An argument
    that is neither a slice nor a pair raises [TypeError]; a first column
    name that the dataframe does not have raises [KeyError].  For a
    dataframe within its invariant, a row slice [[lo:hi]] of step 1 with
    [0 <= lo <= hi <= len(df)] and distinct names of columns of the
    dataframe (all of them, when only the row slice is given), the result
    is a new dataframe with the selected names in the order given and
    [hi - lo] rows, each column of which holds the elements [lo] to [hi]
    of the data of the source column; a column cut from a column without
    nulls is within its invariant and has no mask. *)
Theorem Loc_getitem_spec (_df : DataFrame.t) :
  Loc.__getitem__ _df Loc.AOther = Raise TypeError /\
  (forall sl k rest,
     ~ In k (DataFrame.columns _df) ->
     Loc.__getitem__ _df (Loc.ATuple sl (k :: rest)) = Raise KeyError) /\
  (forall (a : Loc.arg) (sl : slice) (names : list string) (hi : Z),
     let lo := match start sl with Some a => a | None => 0 end in
     a = Loc.ATuple sl names \/
     (a = Loc.ASlice sl /\ names = DataFrame.columns _df) ->
     DataFrame_wf _df ->
     NoDup names ->
     (forall k, In k names -> In k (DataFrame.columns _df)) ->
     stop sl = Some hi ->
     step sl = None \/ step sl = Some 1 ->
     0 <= lo <= hi -> hi <= DataFrame.__len__ _df ->
     exists df,
       Loc.__getitem__ _df a = Ok df /\
       DataFrame.columns df = names /\
       (names <> [] -> DataFrame.__len__ df = hi - lo) /\
       forall k c,
         In k names -> DataFrame.lookup k (DataFrame._cols _df) = Some c ->
         exists c',
           DataFrame.lookup k (DataFrame._cols df) = Some c' /\
           Series.__len__ c' = hi - lo /\
           dense_data c'
           = firstn (Z.to_nat (hi - lo)) (skipn (Z.to_nat lo) (dense_data c)) /\
           (Series.null_count c <= 0 ->
            Series_wf c' /\ Series.has_null_mask c' = false)).
Proof.
  split; [reflexivity|]. split.
  - intros sl k rest Hk. unfold Loc.__getitem__. cbn [bind Loc.slice_each].
    unfold DataFrame.__getitem__.
    rewrite (lookup_absent k) by exact Hk. reflexivity.
  - intros a sl names hi lo Ha Hwf Hnd Hin Estop Hstep Hlo Hhi.
    assert (Ea : Loc.__getitem__ _df a
                 = match Loc.slice_each _df (DataFrame.mk 0 []) sl names with
                   | (Raise e, _) => Raise e
                   | (Ok _, df) => Ok df
                   end).
    { destruct Ha as [-> | [-> ->]]; reflexivity. }
    rewrite Ea.
    destruct (slice_each_ok _df sl hi names Hwf Estop Hstep Hlo Hhi (DataFrame.mk 0 []))
      as (items' & E & HF); [exact Hnd|exact Hin|left; reflexivity|].
    fold lo in E. rewrite E. cbn [DataFrame._cols app].
    eexists. split; [reflexivity|].
    pose proof (Forall2_names _ _ _ HF) as Hkeys.
    unfold DataFrame.columns, DataFrame.__len__.
    cbn [DataFrame._cols DataFrame._size].
    split; [exact Hkeys|]. split; [intros Hne; destruct names; [congruence|reflexivity]|].
    intros k c Hk Hc.
    destruct (Forall2_In_l _ _ _ _ HF Hk) as ([k' c'] & Hin' & Hk' & c0 & Ec0 & Es).
    cbn [fst snd] in *. subst k'. rewrite Hc in Ec0. injection Ec0 as <-.
    assert (Hcw : Series_wf c /\ Series.__len__ c = DataFrame.__len__ _df).
    { unfold DataFrame_wf in Hwf. rewrite Forall_forall in Hwf.
      apply (Hwf (k, c)), lookup_In, Hc. }
    destruct Hcw as [Hcw Hcl].
    destruct (Series_getitem_slice_ok c sl hi Hcw Estop Hstep Hlo)
      as (c2 & E2 & Hsz & Hwd & Hds & _ & Hv & Hm); [lia|].
    fold lo in Hsz, Hds, Hv.
    rewrite Es in E2. injection E2 as <-.
    exists c'. split; [|split; [exact Hsz|split; [exact Hv|]]].
    + apply lookup_NoDup_In; [rewrite Hkeys; exact Hnd|exact Hin'].
    + intros Hnull. destruct (Hm Hnull) as [Hmask Hnc].
      unfold Series.has_null_mask. rewrite Hmask. split; [|reflexivity].
      split; [exact Hwd|]. split; [lia|]. rewrite Hmask. exact Hnc.
Qed.

Lemma Loc_getitem_spec_witness :
  let a := Series.from_array (ints int64 [1; 2; 3; 4]) in
  let b := Series.from_array (ints int64 [5; 6; 7; 8]) in
  let df := DataFrame.mk 4 [("a"%string, a); ("b"%string, b)] in
  exists r c,
    Loc.__getitem__ df (Loc.ATuple (mk_slice None (Some 2) None) ["b"%string]) = Ok r /\
    DataFrame.columns r = ["b"%string] /\
    DataFrame.__len__ r = 2 /\
    DataFrame.__getitem__ r "b"%string = Ok c /\
    dense_data c = [I 5; I 6].
Proof.
  intros a b df.
  destruct (Loc_getitem_spec df) as (_ & _ & H).
  destruct (H (Loc.ATuple (mk_slice None (Some 2) None) ["b"%string])
              (mk_slice None (Some 2) None) ["b"%string] 2)
    as (r & E & Hc & Hl & Hcol).
  - left. reflexivity.
  - repeat constructor; vm_compute; intuition discriminate.
  - repeat constructor. intros [].
  - intros k [<-|[]]. right. left. reflexivity.
  - reflexivity.
  - left. reflexivity.
  - cbn. lia.
  - vm_compute. discriminate.
  - destruct (Hcol "b"%string b) as (c & Ec & _ & Hd & _);
      [left; reflexivity|reflexivity|].
    exists r, c. split; [exact E|]. split; [exact Hc|].
    split; [apply Hl; discriminate|].
    unfold DataFrame.__getitem__. rewrite Ec. split; [reflexivity|exact Hd].
Defined.
